(** * alx-polly: poll and vote server actions

    A shallow embedding of the server actions of [app/lib/actions/poll-actions]
    ([createPoll], [getUserPolls], [getPollById], [submitVote], [castVote],
    [deletePoll], [updatePoll]) together with the validation schemas they use,
    and the properties of the poll/vote consistency and authorisation layer.

    Conventions of the embedding:
    - a JavaScript string is a [string]; its [length] is [String.length]
      (the two agree on ASCII text);
    - the TypeScript type [number] of an option index is [Z];
    - an object literal returned by an action is an association list of
      field names and values, in the order the source writes the fields;
    - the Supabase client of one request is a record [Env]: what
      [auth.getUser()] answers, which store calls the store rejects (and with
      which message), the clock and the identifier the store generates;
    - the tables are lists of rows, in insertion order. *)

From Stdlib Require Import String Ascii List ZArith Bool Arith Lia.
From Stdlib Require Import Sorted Permutation DecimalString.
Import ListNotations.
Open Scope string_scope.

(* ================================================================= *)
(** ** JavaScript strings and arrays *)

(** [Boolean(s)] for a string: the empty string is the only falsy one. *)
Definition truthy (s : string) : bool :=
  negb (Nat.eqb (String.length s) 0).

(** White space removed by [String.prototype.trim] (ASCII part). *)
Definition is_space (c : ascii) : bool :=
  let n := nat_of_ascii c in
  Nat.eqb n 32 || (Nat.leb 9 n && Nat.leb n 13).

Fixpoint trimStart (s : string) : string :=
  match s with
  | EmptyString => EmptyString
  | String c s' => if is_space c then trimStart s' else s
  end.

Definition reverse (s : string) : string :=
  string_of_list_ascii (rev (list_ascii_of_string s)).

Definition trim (s : string) : string :=
  reverse (trimStart (reverse (trimStart s))).

(** [arr.join(sep)] *)
Definition join (sep : string) (arr : list string) : string :=
  String.concat sep arr.

(* ================================================================= *)
(** ** FormData *)

Definition FormData := list (string * string).

(** [formData.get(name)]: the first value of that name, or [null]. *)
Fixpoint FormData_get (fd : FormData) (name : string) : option string :=
  match fd with
  | [] => None
  | (k, v) :: rest => if k =? name then Some v else FormData_get rest name
  end.

(** [formData.getAll(name)] *)
Definition FormData_getAll (fd : FormData) (name : string) : list string :=
  map snd (filter (fun kv => fst kv =? name) fd).

(* ================================================================= *)
(** ** Rows, tables and the world *)

(** The user of a session: [user.id] and [user.email]. *)
Record User := { uid : string; email : option string }.

Module Poll.
Record t := mk
  { id : string;
    question : string;
    options : option (list string);
    user_id : string;
    created_at : string }.
End Poll.

Module Vote.
Record t := mk
  { poll_id : string;
    user_id : string;
    option_index : Z;
    created_at : string }.
End Vote.

Module Profile.
Record t := mk { id : string; role : string }.
End Profile.

(** Everything an action can observe or change: the three tables and the
    paths handed to [revalidatePath]. *)
Record World := mkWorld
  { polls : list Poll.t;
    votes : list Vote.t;
    profiles : list Profile.t;
    revalidated : list string }.

Definition set_polls (w : World) (ps : list Poll.t) : World :=
  mkWorld ps (votes w) (profiles w) (revalidated w).

Definition set_votes (w : World) (vs : list Vote.t) : World :=
  mkWorld (polls w) vs (profiles w) (revalidated w).

Definition revalidatePath (path : string) (w : World) : World :=
  mkWorld (polls w) (votes w) (profiles w) (revalidated w ++ [path]).

(* ================================================================= *)
(** ** The Supabase client of one request *)

(** The answer of [supabase.auth.getUser()]: [{ error }] or
    [{ data: { user } }], the user being [null] without a session. *)
Inductive AuthResponse :=
| AuthError (msg : string)
| AuthData (user : option User).

(** The calls the actions make on the store. *)
Inductive StoreCall :=
| PollsSelect | PollsInsert | PollsUpdate | PollsDelete | VotesUpsert.

Record Env := mkEnv
  { getUser : AuthResponse;           (* supabase.auth.getUser() *)
    rejects : StoreCall -> option string; (* the store's own refusals *)
    now : string;                     (* new Date().toISOString() *)
    fresh_id : string }.              (* default of polls.id *)

(** PostgREST's answer when [.single()] does not find exactly one row. *)
Definition PGRST116 : string :=
  "JSON object requested, multiple (or no) rows returned".

(** [.from("polls").select(...).eq("id", id).single()] *)
Definition polls_single (env : Env) (w : World) (pid : string)
  : string + Poll.t :=
  match rejects env PollsSelect with
  | Some msg => inl msg
  | None =>
      match filter (fun p => Poll.id p =? pid) (polls w) with
      | [p] => inr p
      | _ => inl PGRST116
      end
  end.

(** Insertion into a list ordered newest first, for
    [.order("created_at", { ascending: false })]. *)
Fixpoint insert_newest (p : Poll.t) (l : list Poll.t) : list Poll.t :=
  match l with
  | [] => [p]
  | q :: l' =>
      if String.leb (Poll.created_at q) (Poll.created_at p)
      then p :: l
      else q :: insert_newest p l'
  end.

Definition order_newest (l : list Poll.t) : list Poll.t :=
  fold_right insert_newest [] l.

(** [.from("polls").select(...).eq("user_id", u).order("created_at", ...)] *)
Definition polls_of_user (env : Env) (w : World) (u : string)
  : string + list Poll.t :=
  match rejects env PollsSelect with
  | Some msg => inl msg
  | None => inr (order_newest (filter (fun p => Poll.user_id p =? u) (polls w)))
  end.

(** [.from("polls").insert([{ user_id, question, options }])]: the store
    fills in [id] and [created_at]. *)
Definition polls_insert (env : Env) (w : World)
    (owner q : string) (opts : list string) : option string * World :=
  match rejects env PollsInsert with
  | Some msg => (Some msg, w)
  | None =>
      (None,
       set_polls w
         (polls w ++ [Poll.mk (fresh_id env) q (Some opts) owner (now env)]))
  end.

(** [.from("polls").update({ question, options }).eq("id", pid)] *)
Definition apply_update (pid q : string) (opts : list string) (p : Poll.t)
  : Poll.t :=
  if Poll.id p =? pid
  then Poll.mk (Poll.id p) q (Some opts) (Poll.user_id p) (Poll.created_at p)
  else p.

Definition polls_update (env : Env) (w : World)
    (pid q : string) (opts : list string) : option string * World :=
  match rejects env PollsUpdate with
  | Some msg => (Some msg, w)
  | None => (None, set_polls w (map (apply_update pid q opts) (polls w)))
  end.

(** Modelled from the spec: the schema of the store is not in the
    repository. The code issues [.from("polls").delete().eq("id", pid)]
    alone; that the votes of the poll go with it is the cascade the
    specification gives the store ("deletion removes dependent votes"), which
    the source leaves to the database ("cascading votes if DB configured"). *)
Definition polls_delete (env : Env) (w : World) (pid : string)
  : option string * World :=
  match rejects env PollsDelete with
  | Some msg => (Some msg, w)
  | None =>
      (None,
       mkWorld (filter (fun p => negb (Poll.id p =? pid)) (polls w))
               (filter (fun v => negb (Vote.poll_id v =? pid)) (votes w))
               (profiles w) (revalidated w))
  end.

(** Two vote rows collide on the conflict target [(poll_id, user_id)]. *)
Definition same_key (a b : Vote.t) : bool :=
  (Vote.poll_id a =? Vote.poll_id b) && (Vote.user_id a =? Vote.user_id b).

(** [INSERT ... ON CONFLICT (poll_id, user_id) DO UPDATE]: one store
    operation. *)
Definition upsert_row (payload : Vote.t) (vs : list Vote.t) : list Vote.t :=
  if existsb (same_key payload) vs
  then map (fun v => if same_key payload v then payload else v) vs
  else vs ++ [payload].

(** [.from("votes").upsert(payload, { onConflict: "poll_id,user_id" }).select()]:
    the error, or the rows written. *)
Definition votes_upsert (env : Env) (w : World) (payload : Vote.t)
  : (string + list Vote.t) * World :=
  match rejects env VotesUpsert with
  | Some msg => (inl msg, w)
  | None => (inr [payload], set_votes w (upsert_row payload (votes w)))
  end.

(* ================================================================= *)
(** ** Validation schemas (zod) *)

Inductive PathSeg := Key (k : string) | Index (i : nat).

Record ZodIssue := mkIssue { path : list PathSeg; message : string }.

(** [z.string().min(5, "Question is too short").max(1000)] at key
    [question]; the second text is zod's own. *)
Definition question_issues (q : string) : list ZodIssue :=
  (if Nat.ltb (String.length q) 5
   then [mkIssue [Key "question"] "Question is too short"] else [])
  ++
  (if Nat.ltb 1000 (String.length q)
   then [mkIssue [Key "question"]
           "String must contain at most 1000 character(s)"] else []).

(** [z.string().min(1).max(300)] at element [i] of [options]. *)
Definition option_issues (i : nat) (o : string) : list ZodIssue :=
  (if Nat.ltb (String.length o) 1
   then [mkIssue [Key "options"; Index i]
           "String must contain at least 1 character(s)"] else [])
  ++
  (if Nat.ltb 300 (String.length o)
   then [mkIssue [Key "options"; Index i]
           "String must contain at most 300 character(s)"] else []).

Fixpoint elements_issues (i : nat) (opts : list string) : list ZodIssue :=
  match opts with
  | [] => []
  | o :: rest => option_issues i o ++ elements_issues (S i) rest
  end.

(** [z.array(...).min(2, "At least two options are required").max(50)]:
    the checks on the array, then every element. *)
Definition options_issues (opts : list string) : list ZodIssue :=
  (if Nat.ltb (List.length opts) 2
   then [mkIssue [Key "options"] "At least two options are required"] else [])
  ++
  (if Nat.ltb 50 (List.length opts)
   then [mkIssue [Key "options"]
           "Array must contain at most 50 element(s)"] else [])
  ++ elements_issues 0 opts.

Definition CreateUpdatePollSchema_issues (q : string) (opts : list string)
  : list ZodIssue :=
  question_issues q ++ options_issues opts.

(** [CreateUpdatePollSchema.safeParse({ question, options })]: the issues, or
    the parsed data. *)
Definition CreateUpdatePollSchema_safeParse (q : string) (opts : list string)
  : list ZodIssue + (string * list string) :=
  match CreateUpdatePollSchema_issues q opts with
  | [] => inr (q, opts)
  | issues => inl issues
  end.

Definition is_hex (c : ascii) : bool :=
  let n := nat_of_ascii c in
  (Nat.leb 48 n && Nat.leb n 57)
  || (Nat.leb 65 n && Nat.leb n 70)
  || (Nat.leb 97 n && Nat.leb n 102).

(** Reads [n] hexadecimal digits off the front of [s]. *)
Fixpoint hex_run (n : nat) (s : string) : option string :=
  match n with
  | O => Some s
  | S n' =>
      match s with
      | String c s' => if is_hex c then hex_run n' s' else None
      | EmptyString => None
      end
  end.

Definition dash_then (n : nat) (s : option string) : option string :=
  match s with
  | Some (String "-"%char s') => hex_run n s'
  | _ => None
  end.

(** The shape [z.string().uuid()] accepts: 8-4-4-4-12 hexadecimal digits. *)
Definition is_uuid (s : string) : bool :=
  match dash_then 12 (dash_then 4 (dash_then 4 (dash_then 4 (hex_run 8 s)))) with
  | Some EmptyString => true
  | _ => false
  end.

Definition SubmitVoteSchema_issues (pollId : string) (optionIndex : Z)
  : list ZodIssue :=
  (if is_uuid pollId then [] else [mkIssue [Key "pollId"] "Invalid uuid"])
  ++
  (if (optionIndex <? 0)%Z
   then [mkIssue [Key "optionIndex"]
           "Number must be greater than or equal to 0"] else []).

(** [SubmitVoteSchema.safeParse({ pollId, optionIndex })] *)
Definition SubmitVoteSchema_safeParse (pollId : string) (optionIndex : Z)
  : list ZodIssue + (string * Z) :=
  match SubmitVoteSchema_issues pollId optionIndex with
  | [] => inr (pollId, optionIndex)
  | issues => inl issues
  end.

(** [parsed.error.issues.map((e) => e.message).join(", ")] *)
Definition issues_text (issues : list ZodIssue) : string :=
  join ", " (map message issues).

(* ================================================================= *)
(** ** Values returned by the actions *)

Inductive JsValue :=
| JNull
| JBool (b : bool)
| JString (s : string)
| JPoll (p : Poll.t)
| JPolls (l : list Poll.t)
| JVotes (l : list Vote.t).

Definition JsObject := list (string * JsValue).

Fixpoint field (o : JsObject) (name : string) : option JsValue :=
  match o with
  | [] => None
  | (k, v) :: rest => if k =? name then Some v else field rest name
  end.

(** The text in the [error] field; [None] when it is [null] or missing. *)
Definition error_of (o : JsObject) : option string :=
  match field o "error" with
  | Some (JString s) => Some s
  | _ => None
  end.

(* ================================================================= *)
(** ** Helpers *)

(** [getAuthenticatedUser]: [inl] is the [Error] it throws. *)
Definition getAuthenticatedUser (env : Env) : string + option User :=
  match getUser env with
  | AuthError msg => inl ("Failed to read user session: " ++ msg)
  | AuthData None => inr None
  | AuthData (Some user) => inr (Some user)
  end.

(** The fields both poll forms are read from: the question as sent, the
    options trimmed, the empty ones dropped. *)
Definition form_question (formData : FormData) : string :=
  match FormData_get formData "question" with
  | Some q => q
  | None => ""
  end.

Definition form_options (formData : FormData) : list string :=
  let optionsRaw := filter truthy (FormData_getAll formData "options") in
  filter truthy (map trim optionsRaw).

(** [poll.options ?? []] *)
Definition options_or_empty (p : Poll.t) : list string :=
  match Poll.options p with
  | Some o => o
  | None => []
  end.

(* ================================================================= *)
(** ** The server actions *)

Definition createPoll (env : Env) (w : World) (formData : FormData)
  : JsObject * World :=
  let question := form_question formData in
  let options := form_options formData in
  match CreateUpdatePollSchema_safeParse question options with
  | inl issues => ([("error", JString (issues_text issues))], w)
  | inr (q, opts) =>
      match getAuthenticatedUser env with
      | inl _ => ([("error", JString "Unable to verify session.")], w)
      | inr None =>
          ([("error", JString "You must be logged in to create a poll.")], w)
      | inr (Some user) =>
          match polls_insert env w (uid user) q opts with
          | (Some msg, w') => ([("error", JString msg)], w')
          | (None, w') => ([("error", JNull)], revalidatePath "/polls" w')
          end
      end
  end.

Definition getUserPolls (env : Env) (w : World) : JsObject * World :=
  match getAuthenticatedUser env with
  | inl _ => ([("polls", JPolls []); ("error", JString "Failed to read session")], w)
  | inr None => ([("polls", JPolls []); ("error", JString "Not authenticated")], w)
  | inr (Some user) =>
      match polls_of_user env w (uid user) with
      | inl msg => ([("polls", JPolls []); ("error", JString msg)], w)
      | inr data => ([("polls", JPolls data); ("error", JNull)], w)
      end
  end.

Definition getPollById (env : Env) (w : World) (id : string)
  : JsObject * World :=
  if negb (truthy id)
  then ([("poll", JNull); ("error", JString "Invalid poll id")], w)
  else
    match polls_single env w id with
    | inl msg => ([("poll", JNull); ("error", JString msg)], w)
    | inr data => ([("poll", JPoll data); ("error", JNull)], w)
    end.

Definition submitVote (env : Env) (w : World)
    (pollIdRaw : string) (optionIndexRaw : Z) : JsObject * World :=
  match SubmitVoteSchema_safeParse pollIdRaw optionIndexRaw with
  | inl issues => ([("error", JString (issues_text issues))], w)
  | inr (pollId, optionIndex) =>
      match getAuthenticatedUser env with
      | inl _ => ([("error", JString "Failed to verify session.")], w)
      | inr None => ([("error", JString "You must be logged in to vote.")], w)
      | inr (Some user) =>
          match polls_single env w pollId with
          | inl _ => ([("error", JString "Poll not found.")], w)
          | inr poll =>
              let options := options_or_empty poll in
              if (optionIndex <? 0)%Z
                 || (Z.of_nat (List.length options) <=? optionIndex)%Z
              then ([("error", JString "Invalid option selected.")], w)
              else
                let payload :=
                  Vote.mk pollId (uid user) optionIndex (now env) in
                match votes_upsert env w payload with
                | (inl msg, w') => ([("error", JString msg)], w')
                | (inr _, w') =>
                    ([("error", JNull)],
                     revalidatePath ("/polls/" ++ pollId) w')
                end
          end
      end
  end.

Definition castVote (env : Env) (w : World)
    (poll_id user_id : string) (option_index : Z) : JsObject * World :=
  if negb (truthy poll_id) || negb (truthy user_id)
  then ([("success", JBool false);
         ("error", JString "Missing poll_id or user_id")], w)
  else
    let payload := Vote.mk poll_id user_id option_index (now env) in
    match votes_upsert env w payload with
    | (inl msg, w') => ([("success", JBool false); ("error", JString msg)], w')
    | (inr data, w') => ([("success", JBool true); ("data", JVotes data)], w')
    end.

Definition deletePoll (env : Env) (w : World) (id : string)
  : JsObject * World :=
  if negb (truthy id) then ([("error", JString "Invalid poll id")], w)
  else
    match getAuthenticatedUser env with
    | inl _ => ([("error", JString "Failed to verify session.")], w)
    | inr None => ([("error", JString "Not authenticated")], w)
    | inr (Some user) =>
        match polls_single env w id with
        | inl msg => ([("error", JString msg)], w)
        | inr existing =>
            if negb (Poll.user_id existing =? uid user)
            then ([("error", JString "Forbidden: you do not own this poll.")], w)
            else
              match polls_delete env w id with
              | (Some msg, w') => ([("error", JString msg)], w')
              | (None, w') => ([("error", JNull)], revalidatePath "/polls" w')
              end
        end
    end.

Definition updatePoll (env : Env) (w : World)
    (pollId : string) (formData : FormData) : JsObject * World :=
  let question := form_question formData in
  let options := form_options formData in
  match CreateUpdatePollSchema_safeParse question options with
  | inl issues => ([("error", JString (issues_text issues))], w)
  | inr (q, opts) =>
      match getAuthenticatedUser env with
      | inl _ => ([("error", JString "Unable to verify session.")], w)
      | inr None =>
          ([("error", JString "You must be logged in to update a poll.")], w)
      | inr (Some user) =>
          match polls_single env w pollId with
          | inl msg => ([("error", JString msg)], w)
          | inr existing =>
              if negb (Poll.user_id existing =? uid user)
              then
                ([("error", JString "Forbidden: you do not own this poll.")], w)
              else
                match polls_update env w pollId q opts with
                | (Some msg, w') => ([("error", JString msg)], w')
                | (None, w') =>
                    ([("error", JNull)],
                     revalidatePath ("/polls/" ++ pollId) w')
                end
          end
      end
  end.

(* ================================================================= *)
(** ** The admin page's role gate *)

(** [.from("profiles").select("role").eq("id", user.id).single()], then
    [profile?.role !== "admin"]: who the admin page lets through to its
    list of every poll, each with a Delete button calling [deletePoll]. *)
Definition profile_role (w : World) (u : string) : option string :=
  match filter (fun p => Profile.id p =? u) (profiles w) with
  | [p] => Some (Profile.role p)
  | _ => None
  end.

Definition is_admin (w : World) (u : string) : bool :=
  match profile_role w u with
  | Some r => r =? "admin"
  | None => false
  end.

(* ================================================================= *)
(** ** [submitVote] between its suspension points

    Every [await] on the client is a point where another request may run.
    The states below are the segments of [submitVote] between those points;
    one step runs one segment against the world as it is at that moment. *)

Inductive SubmitVoteState :=
| SvParse (pollIdRaw : string) (optionIndexRaw : Z)
| SvGetUser (pollId : string) (optionIndex : Z)
| SvFindPoll (user : User) (pollId : string) (optionIndex : Z)
| SvUpsert (payload : Vote.t)
| SvReturn (result : JsObject).

Definition submitVote_step (env : Env) (s : SubmitVoteState) (w : World)
  : SubmitVoteState * World :=
  match s with
  | SvParse pollIdRaw optionIndexRaw =>
      match SubmitVoteSchema_safeParse pollIdRaw optionIndexRaw with
      | inl issues => (SvReturn [("error", JString (issues_text issues))], w)
      | inr (pollId, optionIndex) => (SvGetUser pollId optionIndex, w)
      end
  | SvGetUser pollId optionIndex =>
      match getAuthenticatedUser env with
      | inl _ => (SvReturn [("error", JString "Failed to verify session.")], w)
      | inr None =>
          (SvReturn [("error", JString "You must be logged in to vote.")], w)
      | inr (Some user) => (SvFindPoll user pollId optionIndex, w)
      end
  | SvFindPoll user pollId optionIndex =>
      match polls_single env w pollId with
      | inl _ => (SvReturn [("error", JString "Poll not found.")], w)
      | inr poll =>
          if (optionIndex <? 0)%Z
             || (Z.of_nat (List.length (options_or_empty poll)) <=? optionIndex)%Z
          then (SvReturn [("error", JString "Invalid option selected.")], w)
          else (SvUpsert (Vote.mk pollId (uid user) optionIndex (now env)), w)
      end
  | SvUpsert payload =>
      match votes_upsert env w payload with
      | (inl msg, w') => (SvReturn [("error", JString msg)], w')
      | (inr _, w') =>
          (SvReturn [("error", JNull)],
           revalidatePath ("/polls/" ++ Vote.poll_id payload) w')
      end
  | SvReturn _ => (s, w)
  end.

Fixpoint submitVote_run (n : nat) (env : Env) (s : SubmitVoteState) (w : World)
  : SubmitVoteState * World :=
  match n with
  | O => (s, w)
  | S n' =>
      let (s', w') := submitVote_step env s w in
      submitVote_run n' env s' w'
  end.

Definition returned (s : SubmitVoteState) : bool :=
  match s with
  | SvReturn _ => true
  | _ => false
  end.

(** Two calls in flight over one world: at each moment either call that has
    not returned yet runs its next segment. *)
Inductive race_step (e1 e2 : Env)
  : SubmitVoteState * SubmitVoteState * World ->
    SubmitVoteState * SubmitVoteState * World -> Prop :=
| race_first s1 s2 w s1' w' :
    returned s1 = false ->
    submitVote_step e1 s1 w = (s1', w') ->
    race_step e1 e2 (s1, s2, w) (s1', s2, w')
| race_second s1 s2 w s2' w' :
    returned s2 = false ->
    submitVote_step e2 s2 w = (s2', w') ->
    race_step e1 e2 (s1, s2, w) (s1, s2', w').

Inductive race_steps (e1 e2 : Env)
  : SubmitVoteState * SubmitVoteState * World ->
    SubmitVoteState * SubmitVoteState * World -> Prop :=
| race_refl c : race_steps e1 e2 c c
| race_more c c' c'' :
    race_step e1 e2 c c' -> race_steps e1 e2 c' c'' -> race_steps e1 e2 c c''.

(* ================================================================= *)
(** ** Vocabulary of the properties *)

(** The row is the vote of voter [v] on poll [p]. *)
Definition vote_of (p v : string) (r : Vote.t) : bool :=
  (Vote.poll_id r =? p) && (Vote.user_id r =? v).

Definition votes_of (p v : string) (vs : list Vote.t) : list Vote.t :=
  filter (vote_of p v) vs.

Definition count_votes (p v : string) (vs : list Vote.t) : nat :=
  List.length (votes_of p v vs).

(** The uniqueness constraint of the votes table on (poll_id, user_id). *)
Definition votes_unique (vs : list Vote.t) : Prop :=
  forall p v, count_votes p v vs <= 1.

Definition rows_with_id (w : World) (pid : string) : list Poll.t :=
  filter (fun p => Poll.id p =? pid) (polls w).

(** The request carries the session of [u]. *)
Definition signed_in (env : Env) (u : User) : Prop :=
  getUser env = AuthData (Some u).

(** The store refuses nothing in this request. *)
Definition store_accepts (env : Env) : Prop :=
  forall c, rejects env c = None.

(** N successive calls of [submitVote] on one poll, each in its own request. *)
Fixpoint submitVotes (calls : list (Env * Z)) (w : World) (pollId : string)
  : list JsObject * World :=
  match calls with
  | [] => ([], w)
  | (env, optionIndex) :: rest =>
      let (r, w') := submitVote env w pollId optionIndex in
      let (rs, w'') := submitVotes rest w' pollId in
      (r :: rs, w'')
  end.

(** The documented return type [{ error: string | null, data?: any }]: an
    [error] field holding text or [null], at most a [data] field besides. *)
Definition envelope_field (kv : string * JsValue) : bool :=
  match kv with
  | (k, v) =>
      if k =? "error"
      then match v with JNull | JString _ => true | _ => false end
      else k =? "data"
  end.

Definition only_envelope_fields (o : JsObject) : bool :=
  forallb envelope_field o.

Definition is_envelope (o : JsObject) : bool :=
  only_envelope_fields o
  && match field o "error" with Some _ => true | None => false end.

(** The three rules of the poll form, as the specification words them. *)
Definition question_rule_violated (q : string) : bool :=
  Nat.ltb (String.length q) 5 || Nat.ltb 1000 (String.length q).

Definition count_rule_violated (opts : list string) : bool :=
  Nat.ltb (List.length opts) 2 || Nat.ltb 50 (List.length opts).

Definition option_rule_violated (o : string) : bool :=
  Nat.ltb (String.length o) 1 || Nat.ltb 300 (String.length o).

(** How many violations an input has: the question rule, the count rule,
    and the length rule once for each option that breaks it. *)
Definition violations (q : string) (opts : list string) : nat :=
  (if question_rule_violated q then 1 else 0)
  + (if count_rule_violated opts then 1 else 0)
  + List.length (filter option_rule_violated opts).

(** A string of [n] copies of one character, for long inputs. *)
Fixpoint replicate (n : nat) (c : ascii) : string :=
  match n with
  | O => EmptyString
  | S n' => String c (replicate n' c)
  end.

(** The first character of a message; the messages of the poll schema
    start with Q, S or A. *)
Definition first_char (s : string) : option ascii :=
  match s with
  | String c _ => Some c
  | EmptyString => None
  end.

Definition schema_initial (m : string) : Prop :=
  first_char m = Some "Q"%char \/ first_char m = Some "S"%char
  \/ first_char m = Some "A"%char.

(** What an update of poll [pollId] may do to one row. *)
Definition updated_row (pollId q : string) (opts : list string)
    (old new : Poll.t) : Prop :=
  Poll.id new = Poll.id old
  /\ Poll.user_id new = Poll.user_id old
  /\ Poll.created_at new = Poll.created_at old
  /\ (Poll.id old = pollId ->
      Poll.question new = q /\ Poll.options new = Some opts)
  /\ (Poll.id old <> pollId -> new = old).

(** The request of one submission: the voter's session, a store that
    refuses nothing, an index into the poll's [n] options. *)
Definition vote_request (v : string) (n : nat) (call : Env * Z) : Prop :=
  (exists u, signed_in (fst call) u /\ uid u = v)
  /\ store_accepts (fst call)
  /\ (0 <= snd call < Z.of_nat n)%Z.

(** How many segments a call still has to run. *)
Definition segments_left (s : SubmitVoteState) : nat :=
  match s with
  | SvParse _ _ => 4
  | SvGetUser _ _ => 3
  | SvFindPoll _ _ _ => 2
  | SvUpsert _ => 1
  | SvReturn _ => 0
  end.

(** The pair has its one row, holding one of the two submitted indices. *)
Definition settled (p v : string) (i1 i2 : Z) (vs : list Vote.t) : Prop :=
  exists row, votes_of p v vs = [row]
              /\ (Vote.option_index row = i1 \/ Vote.option_index row = i2).

(** What is known of a call of voter [v] on poll [p] with index [i], at
    each of its suspension points. *)
Definition call_inv (p v : string) (i i1 i2 : Z)
    (s : SubmitVoteState) (vs : list Vote.t) : Prop :=
  match s with
  | SvParse a b => a = p /\ b = i
  | SvGetUser a b => a = p /\ b = i
  | SvFindPoll u a b => a = p /\ b = i /\ uid u = v
  | SvUpsert payload => vote_of p v payload = true /\ Vote.option_index payload = i
  | SvReturn r => r = [("error", JNull)] -> settled p v i1 i2 vs
  end.

(** What holds of two calls in flight and the world between them. *)
Definition race_inv (p v : string) (i1 i2 : Z)
    (c : SubmitVoteState * SubmitVoteState * World) : Prop :=
  match c with
  | (s1, s2, w) =>
      votes_unique (votes w)
      /\ call_inv p v i1 i1 i2 s1 (votes w)
      /\ call_inv p v i2 i1 i2 s2 (votes w)
  end.

(* ================================================================= *)
(** ** A small world to run the actions on *)

Module Sample.
Definition alice : User := {| uid := "user-alice"; email := Some "alice@example.com" |}.
Definition bob : User := {| uid := "user-bob"; email := None |}.

Definition poll_id : string := "123e4567-e89b-42d3-a456-426614174000".
Definition other_id : string := "00000000-0000-4000-8000-000000000000".

(** Alice's poll; Bob has the admin role. *)
Definition best_color : Poll.t :=
  Poll.mk poll_id "Best color?" (Some ["Red"; "Blue"]) (uid alice)
          "2024-01-01T00:00:00.000Z".

Definition world : World :=
  mkWorld [best_color] [] [Profile.mk (uid bob) "admin"] [].

(** A request of [who] at time [t], the store refusing nothing. *)
Definition request (who : option User) (t : string) : Env :=
  mkEnv (AuthData who) (fun _ => None) t other_id.

Definition form (q : string) (opts : list string) : FormData :=
  ("question", q) :: map (fun o => ("options", o)) opts.

(** The world after Bob's two racing votes, the one for Red written last. *)
Definition raced_world : World :=
  mkWorld [best_color] [Vote.mk poll_id (uid bob) 0 "t1"]
          [Profile.mk (uid bob) "admin"]
          ["/polls/" ++ poll_id; "/polls/" ++ poll_id].
End Sample.

(* ================================================================= *)
(** ** Vocabulary of the further properties *)

(** The bounds of the data model on one poll row: what the form's schema
    lets through. *)
Definition poll_wellformed (p : Poll.t) : Prop :=
  5 <= String.length (Poll.question p) <= 1000
  /\ exists opts,
       Poll.options p = Some opts
       /\ 2 <= List.length opts <= 50
       /\ forall o, In o opts -> 1 <= String.length o <= 300.

Definition polls_wellformed (w : World) : Prop :=
  Forall poll_wellformed (polls w).

(** The string begins, or ends, with a character [trim] removes. *)
Definition starts_with_space (s : string) : bool :=
  match s with
  | String c _ => is_space c
  | EmptyString => false
  end.

Definition ends_with_space (s : string) : bool :=
  starts_with_space (reverse s).

(** [a] may be listed before [b]: it is not older. Creation times are
    ISO texts, compared as text. *)
Definition not_older (a b : Poll.t) : Prop :=
  String.leb (Poll.created_at b) (Poll.created_at a) = true.

(** The votes cast on poll [pid]. *)
Definition votes_on (pid : string) (vs : list Vote.t) : list Vote.t :=
  filter (fun v => Vote.poll_id v =? pid) vs.

(* ================================================================= *)
(** ** The admin page

    The state of [AdminPage], the effect that loads it, [fetchAllPolls],
    [handleDelete] and what the page renders. The page talks to the store
    through its own browser client. *)

Record PageState := mkPage
  { page_polls : list Poll.t;
    loading : bool;
    deleteLoading : option string;
    page_error : option string }.

(** [useState([])], [useState(true)], [useState(null)], [useState(null)] *)
Definition AdminPage_initial : PageState := mkPage [] true None None.

(** The browser client: whether the store refuses the read of the profile
    or of the polls. *)
Record PageClient := mkPageClient
  { profile_rejected : option string;
    polls_rejected : option string }.

(** [const { data: profile } = await supabase.from("profiles")
    .select("role").eq("id", user?.id).single()]; the error is dropped. *)
Definition fetch_role (c : PageClient) (w : World) (user : User) : option string :=
  match profile_rejected c with
  | Some _ => None
  | None => profile_role w (uid user)
  end.

Definition fetchAllPolls (c : PageClient) (w : World) (user : User)
    (st : PageState) : PageState :=
  let admin :=
    match fetch_role c w user with
    | Some role => role =? "admin"
    | None => false
    end in
  if negb admin
  then mkPage (page_polls st) false (deleteLoading st)
              (Some "Access denied: Admins only.")
  else
    match polls_rejected c with
    | Some _ =>
        mkPage (page_polls st) false (deleteLoading st)
               (Some "Failed to load polls. Please try again later.")
    | None =>
        mkPage (order_newest (polls w)) false (deleteLoading st) (page_error st)
    end.

(** The effect on [user]. *)
Definition AdminPage_effect (c : PageClient) (w : World) (user : option User)
    (st : PageState) : PageState :=
  match user with
  | None =>
      mkPage (page_polls st) false (deleteLoading st)
             (Some "Unauthorized: You must be logged in to view this page.")
  | Some u => fetchAllPolls c w u st
  end.

(** [if (result.error) throw result.error] *)
Definition error_thrown (result : JsObject) : bool :=
  match field result "error" with
  | Some (JString s) => truthy s
  | _ => false
  end.

Definition handleDelete (env : Env) (w : World) (st : PageState)
    (pollId : string) : PageState * World :=
  let (result, w') := deletePoll env w pollId in
  if error_thrown result
  then (mkPage (page_polls st) (loading st) None (Some "Failed to delete poll."),
        w')
  else (mkPage (filter (fun poll => negb (Poll.id poll =? pollId)) (page_polls st))
               (loading st) None (page_error st),
        w').

(** What the page renders: the loading line, else the error text alone,
    else the list. *)
Inductive View :=
| ViewLoading
| ViewError (text : string)
| ViewPolls (listed : list Poll.t).

Definition AdminPage_render (st : PageState) : View :=
  if loading st then ViewLoading
  else
    match page_error st with
    | Some e => if truthy e then ViewError e else ViewPolls (page_polls st)
    | None => ViewPolls (page_polls st)
    end.

(* ================================================================= *)
(** ** The review agent: git helpers, report and command line *)

(** [execSync]: the output of a command, [None] when it throws. *)
Definition Shell := string -> option string.

Definition getStagedDiff (exec : Shell) : string :=
  match exec "git diff --cached --no-color" with
  | Some out => out
  | None => ""
  end.

(** [getBranchDiff(base = 'main')]: an [undefined] argument takes the
    default. *)
Definition getBranchDiff (exec : Shell) (baseArg : option string) : string :=
  let base := match baseArg with Some b => b | None => "main" end in
  match exec "git rev-parse --abbrev-ref HEAD" with
  | None => ""
  | Some out =>
      let branch := trim out in
      match exec ("git diff --no-color " ++ base ++ ".." ++ branch) with
      | Some d => d
      | None => ""
      end
  end.

(** [args.findIndex(f)]; [None] stands for -1. *)
Fixpoint findIndex (f : string -> bool) (args : list string) : option nat :=
  match args with
  | [] => None
  | a :: rest =>
      if f a then Some 0
      else match findIndex f rest with
           | Some i => Some (S i)
           | None => None
           end
  end.

(** [i >= 0 ? args[i + 1] : default], [i] the index of [flag]; [None] is
    [undefined]. *)
Definition arg_after (flag default : string) (args : list string)
  : option string :=
  match findIndex (fun a => a =? flag) args with
  | Some i => nth_error args (i + 1)
  | None => Some default
  end.

(** A value inside a template literal. *)
Definition shown (v : option string) : string :=
  match v with
  | Some s => s
  | None => "undefined"
  end.

Definition newline : string := String (ascii_of_nat 10) EmptyString.

Definition decimal (n : nat) : string :=
  NilEmpty.string_of_uint (Nat.to_uint n).

(** [issues.map((i, idx) => `${idx + 1}. ${i}`)], from index [idx] on. *)
Fixpoint numbered (idx : nat) (issues : list string) : list string :=
  match issues with
  | [] => []
  | i :: rest => (decimal (idx + 1) ++ ". " ++ i) :: numbered (S idx) rest
  end.

Definition issue_lines (issues : list string) : list string :=
  match issues with
  | [] => ["- No issues found."]
  | _ => numbered 0 issues
  end.

(** [s.slice(0, n)] *)
Definition slice0 (n : nat) (s : string) : string := substring 0 n s.

(** The text [writeMarkdownReview] writes to [code-review.md]; [time] is
    the formatted clock. *)
Definition slice_limit : nat := 20 * 1000.

Definition review_content (time : string) (branchOrMode : option string)
    (commitMessage summary : string) (issues : list string) (diff : string)
  : string :=
  join newline
    (List.app
       ["# Code Review Report";
        "";
        "**Generated:** " ++ time;
        "**Mode:** " ++ shown branchOrMode;
        "";
        "## Suggested commit message";
        "```";
        commitMessage;
        "```";
        "";
        "## Summary";
        (if truthy summary then summary else "No summary.");
        "";
        "## Issues & Suggestions"]
       (List.app (issue_lines issues)
          [""; "---"; "## Raw Diff"; "```diff"; slice0 slice_limit diff; "```"])).

Definition double_quote : string := String (ascii_of_nat 34) EmptyString.

Definition tip_line : string :=
  "[agent] Tip: Inspect the suggested commit message above and use `git commit -m "
  ++ double_quote ++ "<message>" ++ double_quote ++ "` when ready.".

(** What one run of the agent leaves: its lines on standard output, the exit
    code it asked for ([None]: it ran to its end), and the report written. *)
Record Run := mkRun
  { logs : list string;
    exit_code : option nat;
    report : option string }.

(** The diff [main] collects and the line it logs before. *)
Definition collect_diff (args : list string) (exec : Shell) : string * string :=
  let mode := arg_after "--mode" "staged" args in
  let baseBranch := arg_after "--base" "main" args in
  match mode with
  | Some "staged" => ("[agent] Collecting staged diff...", getStagedDiff exec)
  | _ =>
      ("[agent] Collecting diff against base branch: " ++ shown baseBranch ++ "...",
       getBranchDiff exec baseBranch)
  end.

(** [main], with [.catch] around it. The two generators are the agent's
    tools; [None] is a rejected promise, as is a failed write. *)
Definition main (args : list string) (exec : Shell)
    (generateCommitMessage : string -> option string)
    (generateReviewSummary : string -> option (string * list string))
    (time : string) (writable : bool) : Run :=
  let mode := arg_after "--mode" "staged" args in
  let (line, diffText) := collect_diff args exec in
  if negb (truthy (trim diffText))
  then mkRun [line; "[agent] No diff detected. Exiting."] (Some 0) None
  else
    let asked :=
      [line; "[agent] Asking AI for a recommended commit message (or fallback)..."] in
    match generateCommitMessage diffText with
    | None => mkRun asked (Some 1) None
    | Some commitMessage =>
        let told :=
          List.app asked
            [newline ++ "=== Suggested Commit Message ===" ++ newline;
             commitMessage;
             newline ++ "===============================" ++ newline;
             "[agent] Generating review summary and inline guidance..."] in
        match generateReviewSummary diffText with
        | None => mkRun told (Some 1) None
        | Some (summary, issues) =>
            let writing :=
              List.app told
                ["[agent] Writing review markdown file: code-review.md"] in
            if writable
            then
              mkRun
                (List.app writing
                   ["[agent] Done. Review written to code-review.md."; tip_line])
                None
                (Some (review_content time mode commitMessage summary issues diffText))
            else mkRun writing (Some 1) None
        end
    end.





(** A request whose store refuses the read of a poll and nothing else. *)
Definition select_refused (who : option User) (text : string) : Env :=
  mkEnv (AuthData who)
        (fun c => match c with PollsSelect => Some text | _ => None end)
        "t" "00000000-0000-4000-8000-000000000000".

(** One case analysis on whatever the goal or a hypothesis matches on. *)
Ltac break_match :=
  match goal with
  | |- context [match ?x with _ => _ end] => destruct x eqn:?
  | H : context [match ?x with _ => _ end] |- _ => destruct x eqn:?
  end.

(* ================================================================= *)
(** ** Basic facts *)

Lemma truthy_length (s : string) : truthy s = true <-> 1 <= String.length s.
Proof.
  unfold truthy. destruct (String.length s); simpl; split; intros; try lia; congruence.
Qed.

Lemma truthy_nonempty (s : string) : truthy s = true <-> s <> "".
Proof.
  destruct s; unfold truthy; simpl; split; intros; congruence.
Qed.

Lemma form_options_nonempty (fd : FormData) (o : string) :
  In o (form_options fd) -> 1 <= String.length o.
Proof.
  unfold form_options. intros H. apply filter_In in H.
  apply truthy_length. tauto.
Qed.

Lemma form_options_trimmed (fd : FormData) (o : string) :
  In o (form_options fd) ->
  exists raw, In raw (FormData_getAll fd "options") /\ raw <> "" /\ o = trim raw.
Proof.
  unfold form_options. intros H. apply filter_In in H. destruct H as [H _].
  apply in_map_iff in H. destruct H as [raw [E H]].
  apply filter_In in H. destruct H as [H T].
  exists raw. repeat split; auto. now apply truthy_nonempty.
Qed.

Lemma polls_single_missing env w pid :
  rows_with_id w pid = [] -> exists msg, polls_single env w pid = inl msg.
Proof.
  unfold polls_single, rows_with_id. intros ->.
  destruct (rejects env PollsSelect); eauto.
Qed.

Lemma polls_single_found env w pid p :
  rejects env PollsSelect = None ->
  rows_with_id w pid = [p] -> polls_single env w pid = inr p.
Proof.
  unfold polls_single, rows_with_id. intros -> ->. reflexivity.
Qed.

Lemma polls_single_inr env w pid p :
  polls_single env w pid = inr p -> rows_with_id w pid = [p].
Proof.
  unfold polls_single, rows_with_id.
  destruct (rejects env PollsSelect); [discriminate|].
  destruct (filter _ _) as [|a [|b l]]; congruence.
Qed.

(** An action that reports an error has changed nothing: every early
    return hands back the world it was given, and a refused store call
    writes no row. *)
Lemma createPoll_error_no_effect env w fd :
  error_of (fst (createPoll env w fd)) <> None -> snd (createPoll env w fd) = w.
Proof.
  unfold createPoll, polls_insert.
  repeat (break_match; simpl; try congruence);
    intros H; exfalso; apply H; reflexivity.
Qed.

Lemma submitVote_error_no_effect env w p i :
  error_of (fst (submitVote env w p i)) <> None -> snd (submitVote env w p i) = w.
Proof.
  unfold submitVote, votes_upsert.
  repeat (break_match; simpl; try congruence);
    intros H; exfalso; apply H; reflexivity.
Qed.

Lemma castVote_error_no_effect env w p u i :
  error_of (fst (castVote env w p u i)) <> None -> snd (castVote env w p u i) = w.
Proof.
  unfold castVote, votes_upsert.
  repeat (break_match; simpl; try congruence);
    intros H; exfalso; apply H; reflexivity.
Qed.

Lemma deletePoll_error_no_effect env w p :
  error_of (fst (deletePoll env w p)) <> None -> snd (deletePoll env w p) = w.
Proof.
  unfold deletePoll, polls_delete.
  repeat (break_match; simpl; try congruence);
    intros H; exfalso; apply H; reflexivity.
Qed.

Lemma updatePoll_error_no_effect env w p fd :
  error_of (fst (updatePoll env w p fd)) <> None -> snd (updatePoll env w p fd) = w.
Proof.
  unfold updatePoll, polls_update.
  repeat (break_match; simpl; try congruence);
    intros H; exfalso; apply H; reflexivity.
Qed.

Lemma reads_no_effect env w p :
  snd (getUserPolls env w) = w /\ snd (getPollById env w p) = w.
Proof.
  unfold getUserPolls, getPollById.
  split; repeat (break_match; simpl; try congruence).
Qed.

Lemma upsert_row_In payload vs : In payload (upsert_row payload vs).
Proof.
  unfold upsert_row. destruct (existsb (same_key payload) vs) eqn:E.
  - apply existsb_exists in E. destruct E as [v [Hin Hk]].
    apply in_map_iff. exists v. rewrite Hk. auto.
  - apply in_or_app. right. now left.
Qed.

Lemma question_issues_length q :
  List.length (question_issues q) = if question_rule_violated q then 1 else 0.
Proof.
  unfold question_issues, question_rule_violated.
  destruct (Nat.ltb_spec (String.length q) 5), (Nat.ltb_spec 1000 (String.length q));
    simpl; lia.
Qed.

Lemma option_issues_length i o :
  List.length (option_issues i o) = if option_rule_violated o then 1 else 0.
Proof.
  unfold option_issues, option_rule_violated.
  destruct (Nat.ltb_spec (String.length o) 1), (Nat.ltb_spec 300 (String.length o));
    simpl; lia.
Qed.

Lemma elements_issues_length opts : forall i,
  List.length (elements_issues i opts) = List.length (filter option_rule_violated opts).
Proof.
  induction opts as [|o rest IH]; intros i; simpl; [reflexivity|].
  rewrite length_app, option_issues_length, IH.
  destruct (option_rule_violated o); simpl; lia.
Qed.

Lemma options_issues_length opts :
  List.length (options_issues opts)
  = (if count_rule_violated opts then 1 else 0)
    + List.length (filter option_rule_violated opts).
Proof.
  unfold options_issues, count_rule_violated.
  rewrite !length_app, elements_issues_length.
  destruct (Nat.ltb_spec (List.length opts) 2), (Nat.ltb_spec 50 (List.length opts));
    simpl; lia.
Qed.

Lemma issues_length q opts :
  List.length (CreateUpdatePollSchema_issues q opts) = violations q opts.
Proof.
  unfold CreateUpdatePollSchema_issues, violations.
  rewrite length_app, question_issues_length, options_issues_length. lia.
Qed.

Lemma violated_option_counts opts o :
  In o opts -> option_rule_violated o = true ->
  1 <= List.length (filter option_rule_violated opts).
Proof.
  intros Hin Hv.
  assert (H : In o (filter option_rule_violated opts)) by (apply filter_In; auto).
  destruct (filter option_rule_violated opts); [contradiction | simpl; lia].
Qed.


Lemma safeParse_valid q opts data :
  CreateUpdatePollSchema_safeParse q opts = inr data ->
  data = (q, opts) /\ violations q opts = 0.
Proof.
  unfold CreateUpdatePollSchema_safeParse. rewrite <- issues_length.
  destruct (CreateUpdatePollSchema_issues q opts); [|discriminate].
  intros H. inversion H. auto.
Qed.

(** What the rules of the form mean for an input with no violation. *)
Lemma no_violation_bounds q opts :
  violations q opts = 0 ->
  5 <= String.length q <= 1000 /\ 2 <= List.length opts <= 50 /\
  forall o, In o opts -> 1 <= String.length o <= 300.
Proof.
  unfold violations, question_rule_violated, count_rule_violated. intros H.
  destruct (Nat.ltb_spec (String.length q) 5), (Nat.ltb_spec 1000 (String.length q));
    simpl in H; try lia.
  destruct (Nat.ltb_spec (List.length opts) 2), (Nat.ltb_spec 50 (List.length opts));
    simpl in H; try lia.
  split; [lia | split; [lia |]]. intros o Ho.
  destruct (option_rule_violated o) eqn:E.
  - pose proof (violated_option_counts opts o Ho E). lia.
  - unfold option_rule_violated in E.
    destruct (Nat.ltb_spec (String.length o) 1), (Nat.ltb_spec 300 (String.length o));
      simpl in E; try discriminate; lia.
Qed.


(* ================================================================= *)
(** ** Validation of the poll form *)

Example createPoll_two_messages :
  createPoll (mkEnv (AuthError "down") (fun _ => None) "t" Sample.other_id)
             Sample.world (Sample.form "Hi" [" Red "; "   "; ""])
  = ([("error",
       JString "Question is too short, At least two options are required")],
     Sample.world).
Proof. reflexivity. Qed.

(** Two options that are too long give two messages of the length rule. *)
Example createPoll_message_per_option :
  fst (createPoll (Sample.request (Some Sample.alice) "t") Sample.world
         (Sample.form "Best color?"
            [replicate 301 "a"; "Blue"; replicate 302 "b"]))
  = [("error",
      JString ("String must contain at most 300 character(s), "
               ++ "String must contain at most 300 character(s)"))].
Proof. vm_compute. reflexivity. Qed.

(* ================================================================= *)
(** ** Who may delete a poll *)

(** What [deletePoll] decides on: once the caller is signed in and the poll
    is found, the deletion goes through exactly for the owner. No role is
    read anywhere on the way. *)
Lemma deletePoll_owner_only env w id u p :
  id <> "" -> signed_in env u -> store_accepts env -> rows_with_id w id = [p] ->
  (error_of (fst (deletePoll env w id)) = None <-> Poll.user_id p = uid u).
Proof.
  intros Hid Hu Hs Hp. unfold deletePoll.
  apply truthy_nonempty in Hid. rewrite Hid. simpl.
  unfold getAuthenticatedUser. rewrite Hu.
  rewrite (polls_single_found env w id p (Hs _) Hp).
  unfold polls_delete. rewrite (Hs PollsDelete).
  destruct (String.eqb_spec (Poll.user_id p) (uid u)); simpl; split; intros H;
    try reflexivity; try congruence; vm_compute in H; discriminate.
Qed.

Lemma deletePoll_ignores_profiles env w id ps :
  fst (deletePoll env (mkWorld (polls w) (votes w) ps (revalidated w)) id)
  = fst (deletePoll env w id).
Proof.
  unfold deletePoll, polls_single, polls_delete. simpl.
  repeat (break_match; simpl; try congruence).
Qed.

(** C1. [deletePoll] is to allow the deletion exactly when the caller is
    the owner of the poll or has the admin role. The code allows it exactly
    for the owner; the two part at this input: Bob holds the admin role and
    is let into the admin page, the poll is Alice's, and [deletePoll] called
    for Bob answers "Forbidden" and deletes nothing. *)
Theorem C1_deletePoll_refuses_admin :
  is_admin Sample.world (uid Sample.bob) = true
  /\ rows_with_id Sample.world Sample.poll_id = [Sample.best_color]
  /\ deletePoll (Sample.request (Some Sample.bob) "2024-01-02T00:00:00.000Z")
                Sample.world Sample.poll_id
     = ([("error", JString "Forbidden: you do not own this poll.")],
        Sample.world).
Proof. repeat split. Qed.

(* ================================================================= *)
(** ** The shape of the results *)

(** The four mutations on polls and [submitVote] keep to the documented
    return type. *)
Lemma mutations_return_envelope env w :
  (forall fd, is_envelope (fst (createPoll env w fd)) = true)
  /\ (forall p i, is_envelope (fst (submitVote env w p i)) = true)
  /\ (forall p, is_envelope (fst (deletePoll env w p)) = true)
  /\ (forall p fd, is_envelope (fst (updatePoll env w p fd)) = true).
Proof.
  unfold createPoll, submitVote, deletePoll, updatePoll,
    polls_insert, votes_upsert, polls_delete, polls_update.
  repeat split; intros; repeat (break_match; simpl; try congruence); reflexivity.
Qed.

(** C9. The documented return type is [{ error, data? }]. [getUserPolls]
    answers with a [polls] field, [getPollById] with a [poll] field and
    [castVote] with a [success] field, on every input: each of their
    results has a field that is neither [error] nor [data], so none has the
    documented shape. *)
Theorem C9_results_outside_envelope (env : Env) (w : World) :
  (only_envelope_fields (fst (getUserPolls env w)) = false
   /\ is_envelope (fst (getUserPolls env w)) = false)
  /\ (forall id,
        only_envelope_fields (fst (getPollById env w id)) = false
        /\ is_envelope (fst (getPollById env w id)) = false)
  /\ (forall poll_id user_id option_index,
        only_envelope_fields (fst (castVote env w poll_id user_id option_index))
        = false
        /\ is_envelope (fst (castVote env w poll_id user_id option_index))
           = false).
Proof.
  unfold getUserPolls, getPollById, castVote, votes_upsert.
  repeat split; intros; repeat (break_match; simpl; try congruence); reflexivity.
Qed.

Example getUserPolls_signed_out :
  getUserPolls (Sample.request None "t") Sample.world
  = ([("polls", JPolls []); ("error", JString "Not authenticated")], Sample.world).
Proof. reflexivity. Qed.

(** The rest of the contract holds of all seven actions: a result with an
    error comes with an unchanged world, and a failure of the session read
    is caught and reported in the result. *)
Lemma error_means_no_effect env w :
  (forall fd r w', createPoll env w fd = (r, w') -> error_of r <> None -> w' = w)
  /\ (forall r w', getUserPolls env w = (r, w') -> w' = w)
  /\ (forall id r w', getPollById env w id = (r, w') -> w' = w)
  /\ (forall p i r w', submitVote env w p i = (r, w') -> error_of r <> None -> w' = w)
  /\ (forall p u i r w', castVote env w p u i = (r, w') -> error_of r <> None -> w' = w)
  /\ (forall p r w', deletePoll env w p = (r, w') -> error_of r <> None -> w' = w)
  /\ (forall p fd r w', updatePoll env w p fd = (r, w') -> error_of r <> None -> w' = w).
Proof.
  repeat split; intros.
  - pose proof (createPoll_error_no_effect env w fd) as E. rewrite H in E. auto.
  - pose proof (reads_no_effect env w "") as [E _]. rewrite H in E. auto.
  - pose proof (reads_no_effect env w id) as [_ E]. rewrite H in E. auto.
  - pose proof (submitVote_error_no_effect env w p i) as E. rewrite H in E. auto.
  - pose proof (castVote_error_no_effect env w p u i) as E. rewrite H in E. auto.
  - pose proof (deletePoll_error_no_effect env w p) as E. rewrite H in E. auto.
  - pose proof (updatePoll_error_no_effect env w p fd) as E. rewrite H in E. auto.
Qed.

(* ================================================================= *)
(** ** [castVote] *)

(** C10. [castVote] checks only that [poll_id] and [user_id] are not empty.
    For any such pair and any integer [option_index], negative or beyond
    the poll's options, whether or not the poll exists and whoever is signed
    in, it goes to the upsert; when the store accepts the write the row is
    in the votes table and the call reports success with the row written. *)
Theorem C10_castVote_unchecked
    (env : Env) (w : World) (poll_id user_id : string) (option_index : Z) :
  poll_id <> "" -> user_id <> "" -> rejects env VotesUpsert = None ->
  let payload := Vote.mk poll_id user_id option_index (now env) in
  castVote env w poll_id user_id option_index
  = ([("success", JBool true); ("data", JVotes [payload])],
     set_votes w (upsert_row payload (votes w)))
  /\ In payload (votes (snd (castVote env w poll_id user_id option_index))).
Proof.
  intros Hp Hu Hs payload.
  assert (E : castVote env w poll_id user_id option_index
              = ([("success", JBool true); ("data", JVotes [payload])],
                 set_votes w (upsert_row payload (votes w)))).
  { unfold castVote, votes_upsert.
    apply truthy_nonempty in Hp, Hu. rewrite Hp, Hu, Hs. reflexivity. }
  split; [exact E|]. rewrite E. simpl. apply upsert_row_In.
Qed.

(** Nobody signed in, no poll of that id, index -7: the vote is stored. *)
Lemma C10_castVote_unchecked_witness :
  castVote (Sample.request None "t") Sample.world "no-such-poll" "anyone" (-7)
  = ([("success", JBool true);
      ("data", JVotes [Vote.mk "no-such-poll" "anyone" (-7) "t"])],
     set_votes Sample.world [Vote.mk "no-such-poll" "anyone" (-7) "t"]).
Proof.
  apply (C10_castVote_unchecked (Sample.request None "t") Sample.world
           "no-such-poll" "anyone" (-7)); [discriminate | discriminate | reflexivity].
Defined.

(** The same vote through [submitVote] stops at the schema. *)
Example submitVote_checks_what_castVote_skips :
  submitVote (Sample.request (Some Sample.bob) "t") Sample.world "no-such-poll" (-7)
  = ([("error",
       JString "Invalid uuid, Number must be greater than or equal to 0")],
     Sample.world)
  /\ submitVote (Sample.request (Some Sample.bob) "t") Sample.world Sample.poll_id 2
     = ([("error", JString "Invalid option selected.")], Sample.world).
Proof. split; reflexivity. Qed.

(* ================================================================= *)
(** ** [submitVote] against the live poll *)

(** C4, as stated, at a signed-out caller: the poll id is well formed and
    the index is not negative; with no such poll the answer is the login
    message, not "Poll not found.", and with the poll present and the index
    past its two options it is again the login message, not
    "Invalid option selected.". *)
Lemma C4_signed_out_counterexample :
  is_uuid Sample.other_id = true /\ is_uuid Sample.poll_id = true
  /\ rows_with_id Sample.world Sample.other_id = []
  /\ submitVote (Sample.request None "t") Sample.world Sample.other_id 0
     = ([("error", JString "You must be logged in to vote.")], Sample.world)
  /\ rows_with_id Sample.world Sample.poll_id = [Sample.best_color]
  /\ (Z.of_nat (List.length (options_or_empty Sample.best_color)) <= 5)%Z
  /\ submitVote (Sample.request None "t") Sample.world Sample.poll_id 5
     = ([("error", JString "You must be logged in to vote.")], Sample.world).
Proof. repeat split. vm_compute. discriminate. Qed.

(** C4, amended. For a signed-in caller, a well-formed poll id and an index
    that is not negative: when no poll has that id, [submitVote] answers
    "Poll not found."; when the lookup finds the poll and the index is at or
    past the number of options the poll has now, it answers
    "Invalid option selected.". In both cases nothing is written. The call
    takes no option count from the client. *)
Theorem C4_submitVote_checks_live_poll
    (env : Env) (w : World) (pollId : string) (optionIndex : Z) (u : User) :
  is_uuid pollId = true -> (0 <= optionIndex)%Z -> signed_in env u ->
  (rows_with_id w pollId = [] ->
   submitVote env w pollId optionIndex
   = ([("error", JString "Poll not found.")], w))
  /\ (forall poll,
        rejects env PollsSelect = None ->
        rows_with_id w pollId = [poll] ->
        (Z.of_nat (List.length (options_or_empty poll)) <= optionIndex)%Z ->
        submitVote env w pollId optionIndex
        = ([("error", JString "Invalid option selected.")], w)).
Proof.
  intros Hid Hi Hu.
  assert (P : SubmitVoteSchema_safeParse pollId optionIndex = inr (pollId, optionIndex)).
  { unfold SubmitVoteSchema_safeParse, SubmitVoteSchema_issues. rewrite Hid.
    destruct (Z.ltb_spec optionIndex 0); [lia | reflexivity]. }
  unfold signed_in in Hu.
  unfold submitVote. rewrite P. unfold getAuthenticatedUser. rewrite Hu. split.
  - intros Hnone. destruct (polls_single_missing env w pollId Hnone) as [msg ->].
    reflexivity.
  - intros poll Hs Hp Hlen. rewrite (polls_single_found env w pollId poll Hs Hp).
    destruct (Z.leb_spec (Z.of_nat (List.length (options_or_empty poll))) optionIndex);
      [|lia].
    rewrite orb_true_r. reflexivity.
Qed.

Lemma C4_submitVote_checks_live_poll_witness :
  submitVote (Sample.request (Some Sample.bob) "t") Sample.world Sample.other_id 0
  = ([("error", JString "Poll not found.")], Sample.world)
  /\ submitVote (Sample.request (Some Sample.bob) "t") Sample.world Sample.poll_id 2
     = ([("error", JString "Invalid option selected.")], Sample.world).
Proof.
  split.
  - apply (C4_submitVote_checks_live_poll (Sample.request (Some Sample.bob) "t")
             Sample.world Sample.other_id 0 Sample.bob);
      [reflexivity | lia | reflexivity | reflexivity].
  - apply (C4_submitVote_checks_live_poll (Sample.request (Some Sample.bob) "t")
             Sample.world Sample.poll_id 2 Sample.bob)
      with (poll := Sample.best_color);
      [reflexivity | lia | reflexivity | reflexivity | reflexivity | simpl; lia].
Defined.

(* ================================================================= *)
(** ** [updatePoll] and [deletePoll]: lookup, then ownership *)

Lemma first_char_join sep m rest c :
  first_char m = Some c -> first_char (join sep (m :: rest)) = Some c.
Proof.
  destruct m as [|a m]; simpl; [discriminate|].
  intros H. destruct rest; simpl; exact H.
Qed.

Lemma elements_issues_initial opts : forall i x,
  In x (elements_issues i opts) -> schema_initial (message x).
Proof.
  unfold schema_initial.
  induction opts as [|o rest IH]; intros i x; simpl; [tauto|].
  rewrite in_app_iff. intros [H | H]; [|eauto].
  unfold option_issues in H. rewrite in_app_iff in H.
  destruct (Nat.ltb (String.length o) 1), (Nat.ltb 300 (String.length o));
    simpl in H; intuition (subst; simpl; auto).
Qed.

Lemma schema_issues_initial q opts x :
  In x (CreateUpdatePollSchema_issues q opts) -> schema_initial (message x).
Proof.
  unfold CreateUpdatePollSchema_issues, options_issues, question_issues.
  rewrite !in_app_iff. intros [[H | H] | [H | [H | H]]];
    try (now apply elements_issues_initial in H);
    unfold schema_initial;
    match type of H with In _ (if ?b then _ else _) => destruct b end;
    simpl in H; intuition (subst; simpl; auto).
Qed.

Lemma validation_text_not_forbidden q opts issues :
  CreateUpdatePollSchema_safeParse q opts = inl issues ->
  issues_text issues <> "Forbidden: you do not own this poll.".
Proof.
  unfold CreateUpdatePollSchema_safeParse.
  destruct (CreateUpdatePollSchema_issues q opts) as [|x rest] eqn:E; [discriminate|].
  intros H. inversion H; subst. clear H.
  assert (I : schema_initial (message x)).
  { apply (schema_issues_initial q opts). rewrite E. now left. }
  unfold issues_text. simpl map. intros F.
  destruct I as [I | [I | I]];
    apply (first_char_join ", " _ (map message rest)) in I;
    rewrite F in I; discriminate.
Qed.

(** C6, as stated, at an input that does not pass validation: Bob is signed
    in and is not the owner of Alice's poll, and the answer to his update
    with a two-letter question is the validation message, not "Forbidden". *)
Lemma C6_invalid_form_counterexample :
  rows_with_id Sample.world Sample.poll_id = [Sample.best_color]
  /\ Poll.user_id Sample.best_color <> uid Sample.bob
  /\ updatePoll (Sample.request (Some Sample.bob) "t") Sample.world Sample.poll_id
                (Sample.form "Hi" ["Red"; "Blue"])
     = ([("error", JString "Question is too short")], Sample.world).
Proof. repeat split. vm_compute. discriminate. Qed.

(** C6, amended. For an existing poll and a signed-in caller who is not its
    owner, whatever role the caller has, [updatePoll] returns an error and
    changes nothing, whatever the form holds; when the form passes
    validation and the store answers the lookup, the error is
    "Forbidden: you do not own this poll.". *)
Theorem C6_updatePoll_refuses_non_owner
    (env : Env) (w : World) (pollId : string) (fd : FormData)
    (u : User) (poll : Poll.t) :
  signed_in env u -> rows_with_id w pollId = [poll] ->
  Poll.user_id poll <> uid u ->
  (exists msg, updatePoll env w pollId fd = ([("error", JString msg)], w))
  /\ (violations (form_question fd) (form_options fd) = 0 ->
      rejects env PollsSelect = None ->
      updatePoll env w pollId fd
      = ([("error", JString "Forbidden: you do not own this poll.")], w)).
Proof.
  intros Hu Hp Hno. unfold signed_in in Hu.
  assert (F : forall existing, polls_single env w pollId = inr existing ->
              negb (Poll.user_id existing =? uid u) = true).
  { intros existing E. apply polls_single_inr in E. rewrite Hp in E.
    inversion E; subst. now destruct (String.eqb_spec (Poll.user_id existing) (uid u)). }
  split.
  - unfold updatePoll.
    destruct (CreateUpdatePollSchema_safeParse _ _) as [issues | [q opts]]; [eauto|].
    unfold getAuthenticatedUser. rewrite Hu.
    destruct (polls_single env w pollId) as [msg | existing] eqn:E; [eauto|].
    rewrite (F existing eq_refl). eauto.
  - intros Hv Hs. unfold updatePoll, CreateUpdatePollSchema_safeParse.
    rewrite <- issues_length in Hv.
    destruct (CreateUpdatePollSchema_issues _ _); [|simpl in Hv; lia].
    unfold getAuthenticatedUser. rewrite Hu.
    rewrite (polls_single_found env w pollId poll Hs Hp) in *.
    rewrite (F poll eq_refl). reflexivity.
Qed.

(** Bob, who has the admin role, on Alice's poll with a form that passes. *)
Lemma C6_updatePoll_refuses_non_owner_witness :
  is_admin Sample.world (uid Sample.bob) = true
  /\ updatePoll (Sample.request (Some Sample.bob) "t") Sample.world Sample.poll_id
                (Sample.form "Worst color?" ["Beige"; "Mauve"])
     = ([("error", JString "Forbidden: you do not own this poll.")], Sample.world).
Proof.
  split; [reflexivity|].
  apply (C6_updatePoll_refuses_non_owner
           (Sample.request (Some Sample.bob) "t") Sample.world Sample.poll_id
           (Sample.form "Worst color?" ["Beige"; "Mauve"])
           Sample.bob Sample.best_color);
    [reflexivity | reflexivity | vm_compute; discriminate | reflexivity | reflexivity].
Defined.

Lemma apply_update_row pollId q opts p :
  updated_row pollId q opts p (apply_update pollId q opts p).
Proof.
  unfold updated_row, apply_update.
  destruct (String.eqb_spec (Poll.id p) pollId); simpl; repeat split; auto;
    intros; congruence.
Qed.

Lemma map_apply_update pollId q opts ps :
  Forall2 (updated_row pollId q opts) ps (map (apply_update pollId q opts) ps).
Proof.
  induction ps as [|p ps IH]; simpl; constructor; auto using apply_update_row.
Qed.

(** C7. After an [updatePoll] that reports no error, every poll row still
    has its identifier, its owner and its creation time; the rows of the
    updated poll carry the question and options of the form, every other
    row is as it was, and so are the votes and the profiles. Such a call
    was made by the owner of the poll. *)
Theorem C7_updatePoll_preserves_identity
    (env : Env) (w : World) (pollId : string) (fd : FormData) :
  fst (updatePoll env w pollId fd) = [("error", JNull)] ->
  Forall2 (updated_row pollId (form_question fd) (form_options fd))
          (polls w) (polls (snd (updatePoll env w pollId fd)))
  /\ votes (snd (updatePoll env w pollId fd)) = votes w
  /\ profiles (snd (updatePoll env w pollId fd)) = profiles w
  /\ exists u p, signed_in env u /\ rows_with_id w pollId = [p]
                 /\ Poll.user_id p = uid u.
Proof.
  unfold updatePoll, signed_in.
  destruct (CreateUpdatePollSchema_safeParse _ _) as [issues | [q opts]] eqn:P;
    [discriminate|].
  apply safeParse_valid in P. destruct P as [P _]. inversion P; subst. clear P.
  unfold getAuthenticatedUser.
  destruct (getUser env) as [msg | [user|]] eqn:Hu; try discriminate.
  destruct (polls_single env w pollId) as [msg | existing] eqn:E; [discriminate|].
  destruct (String.eqb_spec (Poll.user_id existing) (uid user)) as [Ho | Ho];
    simpl; [|discriminate].
  unfold polls_update. destruct (rejects env PollsUpdate); [discriminate|].
  simpl. intros _. repeat split.
  - apply map_apply_update.
  - exists user, existing. repeat split; auto. now apply polls_single_inr in E.
Qed.

(** Alice rewords her own poll. *)
Lemma C7_updatePoll_preserves_identity_witness :
  polls (snd (updatePoll (Sample.request (Some Sample.alice) "t") Sample.world
                Sample.poll_id (Sample.form "Best colour?" ["Red"; "Green"; "Blue"])))
  = [Poll.mk Sample.poll_id "Best colour?" (Some ["Red"; "Green"; "Blue"])
             (uid Sample.alice) "2024-01-01T00:00:00.000Z"]
  /\ votes (snd (updatePoll (Sample.request (Some Sample.alice) "t") Sample.world
                   Sample.poll_id (Sample.form "Best colour?" ["Red"; "Green"; "Blue"])))
     = votes Sample.world.
Proof.
  split; [reflexivity|].
  apply (C7_updatePoll_preserves_identity
           (Sample.request (Some Sample.alice) "t") Sample.world Sample.poll_id
           (Sample.form "Best colour?" ["Red"; "Green"; "Blue"])).
  reflexivity.
Defined.

(** C8, as stated, at calls that do not get as far as a not-found answer:
    no poll has the id; signed in, [updatePoll] with a form that does not
    pass validation reports the validation message; signed out,
    [deletePoll] reports "Not authenticated"; and signed in, with the store
    refusing the lookup, [deletePoll] reports the store's text. None of the
    three is the lookup's not-found error. *)
Lemma C8_earlier_gates_counterexample :
  rows_with_id Sample.world Sample.other_id = []
  /\ updatePoll (Sample.request (Some Sample.bob) "t") Sample.world Sample.other_id
                (Sample.form "Hi" ["Red"; "Blue"])
     = ([("error", JString "Question is too short")], Sample.world)
  /\ deletePoll (Sample.request None "t") Sample.world Sample.other_id
     = ([("error", JString "Not authenticated")], Sample.world)
  /\ deletePoll (select_refused (Some Sample.bob) "permission denied")
                Sample.world Sample.other_id
     = ([("error", JString "permission denied")], Sample.world).
Proof. repeat split. Qed.

(** C8, amended. For a poll id that no row has, when the store answers
    the lookup: neither [deletePoll] nor [updatePoll] ever answers
    "Forbidden", whoever calls and whatever the form holds; and a call that
    reaches the lookup (the caller is signed in, the id given to
    [deletePoll] is not empty, the form given to [updatePoll] passes
    validation) reports the lookup's not-found error and changes nothing. *)
Theorem C8_missing_poll_is_not_found (env : Env) (w : World) (pid : string) :
  rows_with_id w pid = [] -> rejects env PollsSelect = None ->
  (error_of (fst (deletePoll env w pid))
     <> Some "Forbidden: you do not own this poll."
   /\ forall fd, error_of (fst (updatePoll env w pid fd))
                 <> Some "Forbidden: you do not own this poll.")
  /\ (forall u, signed_in env u ->
        (pid <> "" -> deletePoll env w pid = ([("error", JString PGRST116)], w))
        /\ (forall fd, violations (form_question fd) (form_options fd) = 0 ->
              updatePoll env w pid fd = ([("error", JString PGRST116)], w))).
Proof.
  intros Hnone Hs.
  assert (L : polls_single env w pid = inl PGRST116).
  { unfold polls_single. unfold rows_with_id in Hnone. now rewrite Hs, Hnone. }
  split; [split|].
  - unfold deletePoll. rewrite L.
    repeat (break_match; simpl; try congruence); vm_compute; discriminate.
  - intros fd. unfold updatePoll. rewrite L.
    destruct (CreateUpdatePollSchema_safeParse _ _) as [issues | [q opts]] eqn:P.
    + apply validation_text_not_forbidden in P.
      change (error_of (fst ([("error", JString (issues_text issues))], w)))
        with (Some (issues_text issues)).
      congruence.
    + repeat (break_match; simpl; try congruence); vm_compute; discriminate.
  - intros u Hu. unfold signed_in in Hu. split.
    + intros Hid. apply truthy_nonempty in Hid.
      unfold deletePoll, getAuthenticatedUser. now rewrite Hid, Hu, L.
    + intros fd Hv. unfold updatePoll, CreateUpdatePollSchema_safeParse.
      rewrite <- issues_length in Hv.
      destruct (CreateUpdatePollSchema_issues _ _); [|simpl in Hv; lia].
      unfold getAuthenticatedUser. now rewrite Hu, L.
Qed.

Lemma C8_missing_poll_is_not_found_witness :
  deletePoll (Sample.request (Some Sample.bob) "t") Sample.world Sample.other_id
  = ([("error", JString PGRST116)], Sample.world)
  /\ updatePoll (Sample.request (Some Sample.bob) "t") Sample.world Sample.other_id
                (Sample.form "Best color?" ["Red"; "Blue"])
     = ([("error", JString PGRST116)], Sample.world).
Proof.
  destruct (C8_missing_poll_is_not_found
              (Sample.request (Some Sample.bob) "t") Sample.world Sample.other_id
              eq_refl eq_refl) as [_ H].
  destruct (H Sample.bob eq_refl) as [D U].
  split; [apply D; discriminate | apply U; reflexivity].
Defined.

(* ================================================================= *)
(** ** One vote per voter and poll *)

Lemma same_key_vote_of p v payload r :
  vote_of p v payload = true -> same_key payload r = vote_of p v r.
Proof.
  unfold vote_of, same_key. intros H. apply andb_true_iff in H.
  destruct H as [Hp Hv]. apply String.eqb_eq in Hp, Hv. rewrite Hp, Hv.
  now rewrite (String.eqb_sym p), (String.eqb_sym v).
Qed.

Lemma same_key_transfers p v payload r :
  same_key payload r = true -> vote_of p v r = vote_of p v payload.
Proof.
  unfold vote_of, same_key. intros H. apply andb_true_iff in H.
  destruct H as [Hp Hv]. apply String.eqb_eq in Hp, Hv. now rewrite Hp, Hv.
Qed.

Lemma votes_of_replace p v payload vs :
  vote_of p v payload = true ->
  votes_of p v (map (fun r => if same_key payload r then payload else r) vs)
  = map (fun _ => payload) (votes_of p v vs).
Proof.
  intros H. unfold votes_of. induction vs as [|r vs IH]; simpl; [reflexivity|].
  rewrite (same_key_vote_of p v payload r H).
  destruct (vote_of p v r) eqn:E; simpl; rewrite ?H, ?E, IH; reflexivity.
Qed.

Lemma existsb_vote_of p v payload vs :
  vote_of p v payload = true ->
  existsb (same_key payload) vs = negb (Nat.eqb (count_votes p v vs) 0).
Proof.
  intros H. unfold count_votes, votes_of.
  induction vs as [|r vs IH]; simpl; [reflexivity|].
  rewrite (same_key_vote_of p v payload r H).
  destruct (vote_of p v r); simpl; auto.
Qed.

(** An upsert on the pair leaves exactly the row written. *)
Lemma upsert_row_same p v payload vs :
  vote_of p v payload = true -> count_votes p v vs <= 1 ->
  votes_of p v (upsert_row payload vs) = [payload].
Proof.
  intros H Hc. unfold upsert_row. rewrite (existsb_vote_of p v payload vs H).
  unfold count_votes in *.
  destruct (votes_of p v vs) as [|a [|b l]] eqn:E; simpl in *; try lia.
  - unfold votes_of in *. rewrite filter_app, E. simpl. now rewrite H.
  - rewrite votes_of_replace by exact H. now rewrite E.
Qed.

(** An upsert on another pair leaves the rows of this one alone. *)
Lemma upsert_row_other p v payload vs :
  vote_of p v payload = false ->
  votes_of p v (upsert_row payload vs) = votes_of p v vs.
Proof.
  intros H. unfold upsert_row, votes_of.
  destruct (existsb (same_key payload) vs).
  - induction vs as [|r vs IH]; simpl; [reflexivity|].
    destruct (same_key payload r) eqn:K.
    + rewrite (same_key_transfers p v payload r K), H. exact IH.
    + destruct (vote_of p v r); rewrite IH; reflexivity.
  - rewrite filter_app. simpl. rewrite H. apply app_nil_r.
Qed.

Lemma upsert_row_count p v payload vs :
  count_votes p v vs <= 1 -> count_votes p v (upsert_row payload vs) <= 1.
Proof.
  intros Hc. unfold count_votes. destruct (vote_of p v payload) eqn:E.
  - rewrite (upsert_row_same p v payload vs E Hc). simpl. lia.
  - rewrite (upsert_row_other p v payload vs E). exact Hc.
Qed.

Lemma upsert_row_unique payload vs :
  votes_unique vs -> votes_unique (upsert_row payload vs).
Proof.
  intros H p v. apply upsert_row_count, H.
Qed.

Lemma filter_length_le {A} (f : A -> bool) (l : list A) :
  List.length (filter f l) <= List.length l.
Proof.
  induction l as [|a l IH]; simpl; [lia|]. destruct (f a); simpl; lia.
Qed.

Lemma votes_of_filter p v g vs :
  votes_of p v (filter g vs) = filter g (votes_of p v vs).
Proof.
  unfold votes_of. induction vs as [|r vs IH]; simpl; [reflexivity|].
  destruct (g r) eqn:G, (vote_of p v r) eqn:V; simpl; rewrite ?G, ?V, IH; reflexivity.
Qed.

(** The uniqueness constraint is kept by every action: the only writes to
    the votes table are the upsert and the cascade of a poll's deletion. *)
Lemma actions_keep_votes_unique env w :
  votes_unique (votes w) ->
  (forall fd, votes_unique (votes (snd (createPoll env w fd))))
  /\ (forall p i, votes_unique (votes (snd (submitVote env w p i))))
  /\ (forall p u i, votes_unique (votes (snd (castVote env w p u i))))
  /\ (forall p, votes_unique (votes (snd (deletePoll env w p))))
  /\ (forall p fd, votes_unique (votes (snd (updatePoll env w p fd)))).
Proof.
  intros H.
  assert (D : forall g, votes_unique (filter g (votes w))).
  { intros g p v. unfold count_votes. rewrite votes_of_filter.
    pose proof (filter_length_le g (votes_of p v (votes w))).
    specialize (H p v). unfold count_votes in H. lia. }
  unfold createPoll, submitVote, castVote, deletePoll, updatePoll,
    polls_insert, votes_upsert, polls_delete, polls_update.
  repeat split; intros;
    repeat (break_match; simpl; auto using upsert_row_unique);
    repeat match goal with
           | E : (_, _) = (_, _) |- _ => inversion E; subst; clear E
           end;
    simpl; auto using upsert_row_unique.
Qed.

(** What a vote that passes every check does. *)
Lemma submitVote_accepted env w p i u poll :
  is_uuid p = true -> signed_in env u ->
  rejects env PollsSelect = None -> rejects env VotesUpsert = None ->
  rows_with_id w p = [poll] ->
  (0 <= i < Z.of_nat (List.length (options_or_empty poll)))%Z ->
  submitVote env w p i
  = ([("error", JNull)],
     revalidatePath ("/polls/" ++ p)
       (set_votes w (upsert_row (Vote.mk p (uid u) i (now env)) (votes w)))).
Proof.
  intros Hid Hu Hs Hv Hp Hi. unfold signed_in in Hu.
  unfold submitVote, SubmitVoteSchema_safeParse, SubmitVoteSchema_issues.
  assert (N : (i <? 0)%Z = false) by (apply Z.ltb_ge; lia).
  assert (B : (Z.of_nat (List.length (options_or_empty poll)) <=? i)%Z = false)
    by (apply Z.leb_gt; lia).
  rewrite Hid, N. simpl.
  unfold getAuthenticatedUser. rewrite Hu.
  rewrite (polls_single_found env w p poll Hs Hp), N, B.
  simpl. unfold votes_upsert. rewrite Hv. reflexivity.
Qed.

Lemma vote_of_other p v p' v' i t :
  p' <> p \/ v' <> v -> vote_of p' v' (Vote.mk p v i t) = false.
Proof.
  unfold vote_of. simpl. intros [H | H].
  - destruct (String.eqb_spec p p'); [congruence | reflexivity].
  - destruct (String.eqb_spec v v'); [congruence | apply andb_false_r].
Qed.

Lemma submitVotes_last calls : forall w p v poll e i,
  is_uuid p = true -> count_votes p v (votes w) <= 1 ->
  rows_with_id w p = [poll] ->
  Forall (vote_request v (List.length (options_or_empty poll))) (calls ++ [(e, i)]) ->
  votes_of p v (votes (snd (submitVotes (calls ++ [(e, i)]) w p)))
  = [Vote.mk p v i (now e)]
  /\ Forall (fun r => r = [("error", JNull)])
            (fst (submitVotes (calls ++ [(e, i)]) w p))
  /\ polls (snd (submitVotes (calls ++ [(e, i)]) w p)) = polls w
  /\ (forall p' v', p' <> p \/ v' <> v ->
        votes_of p' v' (votes (snd (submitVotes (calls ++ [(e, i)]) w p)))
        = votes_of p' v' (votes w)).
Proof.
  induction calls as [|[e0 i0] calls IH]; intros w p v poll e i Hid Hc Hp Hall.
  - simpl in *. inversion Hall as [|c l [[u [Hu Hv]] [Hs Hi]] _]; subst.
    simpl in *.
    rewrite (submitVote_accepted e w p i u poll Hid Hu (Hs _) (Hs _) Hp Hi).
    simpl. repeat split; auto.
    + apply (upsert_row_same p (uid u)); auto.
      unfold vote_of. simpl. now rewrite !String.eqb_refl.
    + intros p' v' Hne. apply upsert_row_other, vote_of_other, Hne.
  - simpl app in Hall. inversion Hall as [|c l [[u [Hu Hv]] [Hs Hi]] Hrest]; subst.
    simpl in Hu, Hs, Hi. simpl app. simpl submitVotes.
    rewrite (submitVote_accepted e0 w p i0 u poll Hid Hu (Hs _) (Hs _) Hp Hi).
    set (w1 := revalidatePath _ _).
    destruct (IH w1 p (uid u) poll e i Hid) as [A [B [C D]]]; auto.
    + unfold w1. simpl. now apply upsert_row_count.
    + destruct (submitVotes (calls ++ [(e, i)]) w1 p) as [rs w2].
      simpl in *. repeat split; auto.
      intros p' v' Hne. rewrite (D p' v' Hne).
      apply upsert_row_other, vote_of_other, Hne.
Qed.

(** C2. With the votes table meeting its uniqueness constraint, N >= 1
    successive [submitVote] calls by one voter on one poll, each with an
    index into the poll's options, all succeed, and afterwards the table
    holds exactly one row for that poll and voter, carrying the index of
    the last call; the rows of every other pair are as before. *)
Theorem C2_repeated_votes_one_row
    (w : World) (p v : string) (poll : Poll.t)
    (calls : list (Env * Z)) (e : Env) (i : Z) :
  is_uuid p = true -> votes_unique (votes w) -> rows_with_id w p = [poll] ->
  Forall (vote_request v (List.length (options_or_empty poll))) (calls ++ [(e, i)]) ->
  votes_of p v (votes (snd (submitVotes (calls ++ [(e, i)]) w p)))
  = [Vote.mk p v i (now e)]
  /\ count_votes p v (votes (snd (submitVotes (calls ++ [(e, i)]) w p))) = 1
  /\ Forall (fun r => r = [("error", JNull)])
            (fst (submitVotes (calls ++ [(e, i)]) w p))
  /\ (forall p' v', p' <> p \/ v' <> v ->
        votes_of p' v' (votes (snd (submitVotes (calls ++ [(e, i)]) w p)))
        = votes_of p' v' (votes w)).
Proof.
  intros Hid Hu Hp Hall.
  destruct (submitVotes_last calls w p v poll e i Hid (Hu p v) Hp Hall)
    as [A [B [_ D]]].
  unfold count_votes. rewrite A. auto.
Qed.

Lemma votes_unique_nil : votes_unique [].
Proof. intros p v. unfold count_votes. simpl. lia. Qed.

Lemma vote_request_sample who t i n :
  (0 <= i < Z.of_nat n)%Z ->
  vote_request (uid who) n (Sample.request (Some who) t, i).
Proof.
  intros H. unfold vote_request. simpl. repeat split; try lia.
  exists who. split; reflexivity.
Qed.

(** The scenario of the specification: Bob votes Red, then Blue, then Red
    and Blue again; one row, for Blue, from the last call. *)
Lemma C2_repeated_votes_one_row_witness :
  votes_of Sample.poll_id (uid Sample.bob)
    (votes (snd (submitVotes
                   ([(Sample.request (Some Sample.bob) "t1", 0%Z);
                     (Sample.request (Some Sample.bob) "t2", 1%Z);
                     (Sample.request (Some Sample.bob) "t3", 0%Z)]
                    ++ [(Sample.request (Some Sample.bob) "t4", 1%Z)])
                   Sample.world Sample.poll_id)))
  = [Vote.mk Sample.poll_id (uid Sample.bob) 1 "t4"].
Proof.
  apply (C2_repeated_votes_one_row Sample.world Sample.poll_id (uid Sample.bob)
           Sample.best_color).
  - reflexivity.
  - apply votes_unique_nil.
  - reflexivity.
  - simpl app.
    repeat (apply Forall_cons; [apply vote_request_sample; simpl; lia|]).
    apply Forall_nil.
Defined.

Example votes_overwrite_in_place :
  votes (snd (submitVotes
                [(Sample.request (Some Sample.bob) "t1", 0%Z);
                 (Sample.request (Some Sample.alice) "t2", 0%Z);
                 (Sample.request (Some Sample.bob) "t3", 1%Z)]
                Sample.world Sample.poll_id))
  = [Vote.mk Sample.poll_id "user-bob" 1 "t3";
     Vote.mk Sample.poll_id "user-alice" 0 "t2"].
Proof. reflexivity. Qed.

(* ================================================================= *)
(** ** Two submissions in flight *)

(** Run alone, the segments of [submitVote] are [submitVote]. *)
Lemma submitVote_run_alone env w pollIdRaw optionIndexRaw :
  submitVote_run 4 env (SvParse pollIdRaw optionIndexRaw) w
  = (SvReturn (fst (submitVote env w pollIdRaw optionIndexRaw)),
     snd (submitVote env w pollIdRaw optionIndexRaw)).
Proof.
  unfold submitVote, submitVote_run, submitVote_step at 1.
  destruct (SubmitVoteSchema_safeParse pollIdRaw optionIndexRaw)
    as [issues | [pollId optionIndex]]; [reflexivity|].
  unfold submitVote_step at 1.
  destruct (getAuthenticatedUser env) as [thrown | [user|]]; try reflexivity.
  unfold submitVote_step at 1.
  destruct (polls_single env w pollId) as [pollErr | poll]; [reflexivity|].
  destruct ((optionIndex <? 0)%Z || _); [reflexivity|].
  unfold submitVote_step at 1. cbn [Vote.poll_id].
  destruct (votes_upsert env w _) as [[error | data] w']; reflexivity.
Qed.

Lemma submitVote_step_advances env s w :
  returned s = false ->
  segments_left (fst (submitVote_step env s w)) < segments_left s.
Proof.
  destruct s; simpl; try discriminate; intros _;
    repeat (break_match; simpl; try lia).
Qed.

(** Whatever has happened so far, the two calls can both run to their
    return. *)
Lemma race_finishes e1 e2 : forall n s1 s2 w,
  segments_left s1 + segments_left s2 <= n ->
  exists r1 r2 w', race_steps e1 e2 (s1, s2, w) (SvReturn r1, SvReturn r2, w').
Proof.
  induction n as [|n IH]; intros s1 s2 w Hn.
  - destruct s1, s2; simpl in Hn; try lia. eauto using race_refl.
  - destruct (returned s1) eqn:R1.
    + destruct (returned s2) eqn:R2.
      * destruct s1, s2; try discriminate. eauto using race_refl.
      * pose proof (submitVote_step_advances e2 s2 w R2) as A.
        destruct (submitVote_step e2 s2 w) as [s2' w'] eqn:E. simpl in A.
        destruct (IH s1 s2' w') as [r1 [r2 [w'' H]]]; [lia|].
        exists r1, r2, w''. eapply race_more; [|exact H].
        now apply race_second.
    + pose proof (submitVote_step_advances e1 s1 w R1) as A.
      destruct (submitVote_step e1 s1 w) as [s1' w'] eqn:E. simpl in A.
      destruct (IH s1' s2 w') as [r1 [r2 [w'' H]]]; [lia|].
      exists r1, r2, w''. eapply race_more; [|exact H].
      now apply race_first.
Qed.

Lemma SubmitVoteSchema_parsed a b x y :
  SubmitVoteSchema_safeParse a b = inr (x, y) -> x = a /\ y = b.
Proof.
  unfold SubmitVoteSchema_safeParse.
  destruct (SubmitVoteSchema_issues a b); intros H; inversion H; auto.
Qed.

(** A segment writes to the votes table only by the upsert of its own
    payload. *)
Lemma step_writes env s w :
  votes (snd (submitVote_step env s w)) = votes w
  \/ exists payload,
       s = SvUpsert payload
       /\ votes (snd (submitVote_step env s w)) = upsert_row payload (votes w).
Proof.
  destruct s; simpl.
  - left. destruct (SubmitVoteSchema_safeParse _ _) as [issues | [x y]]; reflexivity.
  - left. destruct (getAuthenticatedUser env) as [thrown | [user|]]; reflexivity.
  - left. destruct (polls_single env w pollId); [reflexivity|].
    destruct (_ || _); reflexivity.
  - unfold votes_upsert. destruct (rejects env VotesUpsert); simpl; eauto.
  - now left.
Qed.

Lemma step_keeps_unique env s w :
  votes_unique (votes w) -> votes_unique (votes (snd (submitVote_step env s w))).
Proof.
  intros H. destruct (step_writes env s w) as [E | [payload [_ E]]]; rewrite E;
    auto using upsert_row_unique.
Qed.

(** The call that runs a segment keeps its own invariant. *)
Lemma step_own env u p i i1 i2 s w :
  signed_in env u -> i = i1 \/ i = i2 ->
  count_votes p (uid u) (votes w) <= 1 ->
  call_inv p (uid u) i i1 i2 s (votes w) ->
  call_inv p (uid u) i i1 i2 (fst (submitVote_step env s w))
           (votes (snd (submitVote_step env s w))).
Proof.
  intros Hu Hi Hc Hs. unfold signed_in in Hu. destruct s; simpl in *.
  - destruct (SubmitVoteSchema_safeParse pollIdRaw optionIndexRaw)
      as [issues | [x y]] eqn:P; simpl; [discriminate|].
    apply SubmitVoteSchema_parsed in P. destruct P, Hs. split; congruence.
  - unfold getAuthenticatedUser. rewrite Hu. simpl. tauto.
  - destruct Hs as [Hp [Hb Hv]].
    destruct (polls_single env w pollId); simpl; [discriminate|].
    destruct (_ || _); simpl; [discriminate|].
    unfold vote_of. simpl. subst. now rewrite Hv, !String.eqb_refl.
  - destruct Hs as [Hk Ho]. unfold votes_upsert.
    destruct (rejects env VotesUpsert); simpl; [discriminate|].
    intros _. exists payload. split; [now apply upsert_row_same|].
    rewrite Ho. exact Hi.
  - exact Hs.
Qed.

(** The other call's invariant survives that segment. *)
Lemma step_other env p v i i' i1 i2 s t w :
  i = i1 \/ i = i2 ->
  count_votes p v (votes w) <= 1 ->
  call_inv p v i i1 i2 s (votes w) ->
  call_inv p v i' i1 i2 t (votes w) ->
  call_inv p v i' i1 i2 t (votes (snd (submitVote_step env s w))).
Proof.
  intros Hi Hc Hs Ht.
  destruct (step_writes env s w) as [E | [payload [Es E]]]; rewrite E; [exact Ht|].
  subst s. destruct Hs as [Hk Ho].
  destruct t; simpl in *; auto.
  intros _. exists payload. split; [now apply upsert_row_same|].
  rewrite Ho. exact Hi.
Qed.

Lemma race_step_inv e1 e2 u1 u2 p i1 i2 c c' :
  signed_in e1 u1 -> signed_in e2 u2 -> uid u2 = uid u1 ->
  race_step e1 e2 c c' ->
  race_inv p (uid u1) i1 i2 c -> race_inv p (uid u1) i1 i2 c'.
Proof.
  intros H1 H2 Hv Hstep. destruct Hstep as [s1 s2 w s1' w' _ E | s1 s2 w s2' w' _ E];
    intros [Hu [I1 I2]];
    [ pose proof (step_keeps_unique e1 s1 w Hu) as U;
      pose proof (step_own e1 u1 p i1 i1 i2 s1 w H1 (or_introl eq_refl) (Hu _ _) I1) as A;
      pose proof (step_other e1 p (uid u1) i1 i2 i1 i2 s1 s2 w
                    (or_introl eq_refl) (Hu _ _) I1 I2) as B
    | pose proof (step_keeps_unique e2 s2 w Hu) as U;
      rewrite <- Hv in *;
      pose proof (step_own e2 u2 p i2 i1 i2 s2 w H2 (or_intror eq_refl) (Hu _ _) I2) as A;
      pose proof (step_other e2 p (uid u2) i2 i1 i1 i2 s2 s1 w
                    (or_intror eq_refl) (Hu _ _) I2 I1) as B ];
    rewrite E in *; simpl in *; repeat split; assumption.
Qed.

Lemma race_steps_inv e1 e2 u1 u2 p i1 i2 c c' :
  signed_in e1 u1 -> signed_in e2 u2 -> uid u2 = uid u1 ->
  race_steps e1 e2 c c' ->
  race_inv p (uid u1) i1 i2 c -> race_inv p (uid u1) i1 i2 c'.
Proof.
  intros H1 H2 Hv Hsteps. induction Hsteps; eauto using race_step_inv.
Qed.

(** C3. Two [submitVote] calls of one voter on one poll, their segments
    interleaved in any order over a votes table that meets its uniqueness
    constraint: at every moment the table has at most one row for the pair
    (and still meets the constraint), and once either call has returned
    without error it has exactly one, holding the index of one of the two
    calls. Each call writes by the one upsert, a single store operation. *)
Theorem C3_concurrent_votes_one_row
    (e1 e2 : Env) (u1 u2 : User) (w : World) (p : string) (i1 i2 : Z)
    (s1 s2 : SubmitVoteState) (w' : World) :
  signed_in e1 u1 -> signed_in e2 u2 -> uid u2 = uid u1 ->
  votes_unique (votes w) ->
  race_steps e1 e2 (SvParse p i1, SvParse p i2, w) (s1, s2, w') ->
  votes_unique (votes w')
  /\ count_votes p (uid u1) (votes w') <= 1
  /\ (s1 = SvReturn [("error", JNull)] \/ s2 = SvReturn [("error", JNull)] ->
      exists row, votes_of p (uid u1) (votes w') = [row]
                  /\ (Vote.option_index row = i1 \/ Vote.option_index row = i2)).
Proof.
  intros H1 H2 Hv Hu Hrace.
  assert (I : race_inv p (uid u1) i1 i2 (s1, s2, w')).
  { apply (race_steps_inv e1 e2 u1 u2 p i1 i2 _ _ H1 H2 Hv Hrace).
    simpl. auto. }
  destruct I as [U [I1 I2]].
  split; [exact U|]. split; [apply U|].
  intros [E | E]; subst; [apply I1 | apply I2]; reflexivity.
Qed.

(** Bob's two requests, for Red at t1 and for Blue at t2, both past the
    poll lookup before either writes; the second writes first. *)
Lemma C3_concurrent_votes_one_row_witness :
  race_steps (Sample.request (Some Sample.bob) "t1")
             (Sample.request (Some Sample.bob) "t2")
             (SvParse Sample.poll_id 0, SvParse Sample.poll_id 1, Sample.world)
             (SvReturn [("error", JNull)], SvReturn [("error", JNull)],
              Sample.raced_world)
  /\ count_votes Sample.poll_id (uid Sample.bob) (votes Sample.raced_world) <= 1.
Proof.
  assert (R : race_steps (Sample.request (Some Sample.bob) "t1")
                (Sample.request (Some Sample.bob) "t2")
                (SvParse Sample.poll_id 0, SvParse Sample.poll_id 1, Sample.world)
                (SvReturn [("error", JNull)], SvReturn [("error", JNull)],
                 Sample.raced_world)).
  { eapply race_more; [apply race_first; [reflexivity | vm_compute; reflexivity]|].
    eapply race_more; [apply race_second; [reflexivity | vm_compute; reflexivity]|].
    eapply race_more; [apply race_first; [reflexivity | vm_compute; reflexivity]|].
    eapply race_more; [apply race_second; [reflexivity | vm_compute; reflexivity]|].
    eapply race_more; [apply race_first; [reflexivity | vm_compute; reflexivity]|].
    eapply race_more; [apply race_second; [reflexivity | vm_compute; reflexivity]|].
    eapply race_more; [apply race_second; [reflexivity | vm_compute; reflexivity]|].
    eapply race_more; [apply race_first; [reflexivity | vm_compute; reflexivity]|].
    apply race_refl. }
  split; [exact R|].
  apply (C3_concurrent_votes_one_row
           (Sample.request (Some Sample.bob) "t1")
           (Sample.request (Some Sample.bob) "t2")
           Sample.bob Sample.bob Sample.world Sample.poll_id 0 1
           (SvReturn [("error", JNull)]) (SvReturn [("error", JNull)])
           Sample.raced_world);
    [reflexivity | reflexivity | reflexivity | apply votes_unique_nil | exact R].
Defined.

(* ================================================================= *)
(** ** Creating a poll *)

Lemma no_option_violates opts :
  (forall o, In o opts -> 1 <= String.length o <= 300) ->
  filter option_rule_violated opts = [].
Proof.
  induction opts as [|o rest IH]; intros Ho; simpl; [reflexivity|].
  assert (E : option_rule_violated o = false).
  { unfold option_rule_violated. specialize (Ho o (or_introl eq_refl)).
    destruct (Nat.ltb_spec (String.length o) 1), (Nat.ltb_spec 300 (String.length o));
      simpl; auto; lia. }
  rewrite E. apply IH. intros o' Hin. apply Ho. now right.
Qed.

Lemma bounds_no_violation q opts :
  5 <= String.length q <= 1000 -> 2 <= List.length opts <= 50 ->
  (forall o, In o opts -> 1 <= String.length o <= 300) ->
  violations q opts = 0.
Proof.
  intros Hq Hn Ho. unfold violations, question_rule_violated, count_rule_violated.
  rewrite (no_option_violates opts Ho).
  destruct (Nat.ltb_spec (String.length q) 5), (Nat.ltb_spec 1000 (String.length q));
    try lia.
  destruct (Nat.ltb_spec (List.length opts) 2), (Nat.ltb_spec 50 (List.length opts));
    try lia.
  reflexivity.
Qed.

Lemma safeParse_accepts q opts :
  violations q opts = 0 -> CreateUpdatePollSchema_safeParse q opts = inr (q, opts).
Proof.
  intros H. rewrite <- issues_length in H. unfold CreateUpdatePollSchema_safeParse.
  destruct (CreateUpdatePollSchema_issues q opts); [reflexivity | simpl in H; lia].
Qed.

(** The row [createPoll] inserts for [u]. *)
Lemma createPoll_accepted env w fd u :
  violations (form_question fd) (form_options fd) = 0 ->
  signed_in env u -> rejects env PollsInsert = None ->
  createPoll env w fd
  = ([("error", JNull)],
     revalidatePath "/polls"
       (set_polls w
          (polls w ++ [Poll.mk (fresh_id env) (form_question fd)
                         (Some (form_options fd)) (uid u) (now env)]))).
Proof.
  intros Hv Hu Hs. unfold signed_in in Hu.
  unfold createPoll. rewrite (safeParse_accepts _ _ Hv).
  unfold getAuthenticatedUser, polls_insert. now rewrite Hu, Hs.
Qed.

(** X1. A form whose question has 5 to 1000 characters and which, after
    trimming and dropping empty options, has 2 to 50 options of at most 300
    characters, sent by a signed-in caller to a store that accepts the
    insert: [createPoll] reports no error, appends one row owned by the
    caller with the question as sent and the normalised options, touches no
    other row and no vote, and revalidates the listing path. *)
Theorem X1_createPoll_stores_form
    (env : Env) (w : World) (fd : FormData) (u : User) :
  5 <= String.length (form_question fd) <= 1000 ->
  2 <= List.length (form_options fd) <= 50 ->
  (forall o, In o (form_options fd) -> String.length o <= 300) ->
  signed_in env u -> rejects env PollsInsert = None ->
  fst (createPoll env w fd) = [("error", JNull)]
  /\ polls (snd (createPoll env w fd))
     = (polls w ++ [Poll.mk (fresh_id env) (form_question fd)
                      (Some (form_options fd)) (uid u) (now env)])%list
  /\ votes (snd (createPoll env w fd)) = votes w
  /\ revalidated (snd (createPoll env w fd))
     = (revalidated w ++ ["/polls"])%list.
Proof.
  intros Hq Hn Ho Hu Hs.
  rewrite (createPoll_accepted env w fd u); auto.
  apply bounds_no_violation; auto.
  intros o Hin. split; [now apply (form_options_nonempty fd) | now apply Ho].
Qed.

Lemma X1_createPoll_stores_form_witness :
  polls (snd (createPoll (Sample.request (Some Sample.bob) "t") Sample.world
                (Sample.form "Tabs or spaces?" [" Tabs"; ""; "Spaces  "])))
  = [Sample.best_color;
     Poll.mk Sample.other_id "Tabs or spaces?" (Some ["Tabs"; "Spaces"])
             "user-bob" "t"].
Proof.
  apply (X1_createPoll_stores_form (Sample.request (Some Sample.bob) "t")
           Sample.world (Sample.form "Tabs or spaces?" [" Tabs"; ""; "Spaces  "])
           Sample.bob).
  - vm_compute. lia.
  - vm_compute. lia.
  - intros o Hin. vm_compute in Hin.
    destruct Hin as [<- | [<- | []]]; vm_compute; lia.
  - reflexivity.
  - reflexivity.
Defined.

Lemma createPoll_success_inv (env : Env) (w : World) (fd : FormData) :
  fst (createPoll env w fd) = [("error", JNull)] ->
  exists u,
    signed_in env u
    /\ 5 <= String.length (form_question fd) <= 1000
    /\ 2 <= List.length (form_options fd) <= 50
    /\ (forall o, In o (form_options fd) -> 1 <= String.length o <= 300)
    /\ snd (createPoll env w fd)
       = revalidatePath "/polls"
           (set_polls w
              (polls w ++ [Poll.mk (fresh_id env) (form_question fd)
                             (Some (form_options fd)) (uid u) (now env)])).
Proof.
  unfold createPoll, signed_in.
  destruct (CreateUpdatePollSchema_safeParse _ _) as [issues | [q opts]] eqn:P;
    [discriminate|].
  apply safeParse_valid in P. destruct P as [P V]. inversion P; subst. clear P.
  apply no_violation_bounds in V. destruct V as [Vq [Vn Vo]].
  unfold getAuthenticatedUser.
  destruct (getUser env) as [msg | [user|]] eqn:Hu; try discriminate.
  unfold polls_insert. destruct (rejects env PollsInsert); [discriminate|].
  simpl. intros _. exists user. repeat split; auto; try lia; apply Vo; auto.
Qed.

(** X2. Whenever [createPoll] reports no error, the caller was signed in,
    the form was within the bounds of the schema, and the world differs from
    the one before by exactly one new poll row, owned by the caller: no
    poll is ever created for a caller without a session or from a form
    outside the bounds. *)
Theorem X2_createPoll_success_means
    (env : Env) (w : World) (fd : FormData) :
  fst (createPoll env w fd) = [("error", JNull)] ->
  exists u,
    signed_in env u
    /\ 5 <= String.length (form_question fd) <= 1000
    /\ 2 <= List.length (form_options fd) <= 50
    /\ (forall o, In o (form_options fd) -> 1 <= String.length o <= 300)
    /\ snd (createPoll env w fd)
       = revalidatePath "/polls"
           (set_polls w
              (polls w ++ [Poll.mk (fresh_id env) (form_question fd)
                             (Some (form_options fd)) (uid u) (now env)])).
Proof. exact (createPoll_success_inv env w fd). Qed.

Lemma X2_createPoll_success_means_witness :
  exists u,
    signed_in (Sample.request (Some Sample.bob) "t") u
    /\ 5 <= String.length (form_question (Sample.form "Tabs or spaces?" ["Tabs"; "Spaces"]))
       <= 1000.
Proof.
  destruct (X2_createPoll_success_means
              (Sample.request (Some Sample.bob) "t") Sample.world
              (Sample.form "Tabs or spaces?" ["Tabs"; "Spaces"]) eq_refl)
    as [u [Hu [Hq _]]].
  exists u. split; assumption.
Defined.

(* ================================================================= *)
(** ** What [trim] leaves *)

Lemma list_ascii_app a b :
  list_ascii_of_string (a ++ b)
  = (list_ascii_of_string a ++ list_ascii_of_string b)%list.
Proof.
  induction a as [|c a IH]; simpl; [reflexivity | now rewrite IH].
Qed.

Lemma string_of_list_app l m :
  string_of_list_ascii (l ++ m)%list
  = string_of_list_ascii l ++ string_of_list_ascii m.
Proof.
  induction l as [|c l IH]; simpl; [reflexivity | now rewrite IH].
Qed.

Lemma reverse_app a b : reverse (a ++ b) = reverse b ++ reverse a.
Proof.
  unfold reverse. now rewrite list_ascii_app, rev_app_distr, string_of_list_app.
Qed.

Lemma reverse_involutive s : reverse (reverse s) = s.
Proof.
  unfold reverse.
  now rewrite list_ascii_of_string_of_list_ascii, rev_involutive,
    string_of_list_ascii_of_string.
Qed.

Lemma trimStart_suffix s : exists ws, s = ws ++ trimStart s.
Proof.
  induction s as [|c s [ws IH]]; simpl.
  - now exists "".
  - destruct (is_space c).
    + exists (String c ws). simpl. now rewrite <- IH.
    + now exists "".
Qed.

Lemma trimStart_clean s : starts_with_space (trimStart s) = false.
Proof.
  induction s as [|c s IH]; simpl; [reflexivity|].
  destruct (is_space c) eqn:E; [exact IH | simpl; exact E].
Qed.

Lemma trimStart_fixed s : starts_with_space s = false -> trimStart s = s.
Proof.
  destruct s as [|c s]; simpl; [reflexivity|]. now intros ->.
Qed.

Lemma starts_with_space_prefix a b :
  a <> "" -> starts_with_space (a ++ b) = starts_with_space a.
Proof.
  destruct a; simpl; congruence.
Qed.

Lemma trim_clean s :
  starts_with_space (trim s) = false /\ ends_with_space (trim s) = false.
Proof.
  unfold trim, ends_with_space. rewrite reverse_involutive. split.
  - destruct (trimStart_suffix (reverse (trimStart s))) as [ws E].
    apply (f_equal reverse) in E. rewrite reverse_involutive, reverse_app in E.
    destruct (reverse (trimStart (reverse (trimStart s)))) as [|c r] eqn:R;
      [reflexivity|].
    pose proof (trimStart_clean s) as C. rewrite E in C.
    rewrite starts_with_space_prefix in C by discriminate. exact C.
  - apply trimStart_clean.
Qed.

Lemma trim_fixed s :
  starts_with_space s = false -> ends_with_space s = false -> trim s = s.
Proof.
  unfold trim, ends_with_space. intros A B.
  now rewrite (trimStart_fixed s A), (trimStart_fixed _ B), reverse_involutive.
Qed.

(** X3. Every option that reaches the schema, and so every option
    [createPoll] or [updatePoll] can store, is not empty and neither begins
    nor ends with a white-space character; normalising it again changes
    nothing. *)
Theorem X3_form_options_are_trimmed (fd : FormData) (o : string) :
  In o (form_options fd) ->
  o <> ""
  /\ starts_with_space o = false
  /\ ends_with_space o = false
  /\ trim o = o.
Proof.
  intros Hin. destruct (form_options_trimmed fd o Hin) as [raw [_ [_ E]]].
  pose proof (form_options_nonempty fd o Hin) as L.
  destruct (trim_clean raw) as [A B]. rewrite <- E in A, B.
  repeat split; auto using trim_fixed.
  destruct o; simpl in L; [lia | discriminate].
Qed.

Lemma X3_form_options_are_trimmed_witness :
  starts_with_space "Spaces" = false /\ ends_with_space "Spaces" = false.
Proof.
  destruct (X3_form_options_are_trimmed
              (Sample.form "Tabs or spaces?" [" Tabs"; ""; "Spaces  "]) "Spaces")
    as [_ [A [B _]]].
  - vm_compute. auto.
  - split; assumption.
Defined.

(* ================================================================= *)
(** ** Validation of the poll form: normalisation and messages *)






Example createPoll_one_message :
  createPoll (mkEnv (AuthError "down") (fun _ => None) "t" Sample.other_id)
             Sample.world (Sample.form "Hi" [" Red "; "   "; ""; "Blue  "])
  = ([("error", JString "Question is too short")], Sample.world).
Proof. reflexivity. Qed.


(* ================================================================= *)
(** ** What the actions keep of the polls table *)

Lemma poll_wellformed_intro pid q opts owner t :
  violations q opts = 0 -> poll_wellformed (Poll.mk pid q (Some opts) owner t).
Proof.
  intros V. apply no_violation_bounds in V. destruct V as [Vq [Vn Vo]].
  split; [exact Vq|]. exists opts. auto.
Qed.

Lemma createPoll_polls env w fd :
  polls (snd (createPoll env w fd)) = polls w
  \/ (violations (form_question fd) (form_options fd) = 0
      /\ exists u,
           polls (snd (createPoll env w fd))
           = (polls w ++ [Poll.mk (fresh_id env) (form_question fd)
                            (Some (form_options fd)) (uid u) (now env)])%list).
Proof.
  unfold createPoll.
  destruct (CreateUpdatePollSchema_safeParse _ _) as [issues | [q opts]] eqn:P;
    [now left|].
  apply safeParse_valid in P. destruct P as [P V]. inversion P; subst. clear P.
  destruct (getAuthenticatedUser env) as [thrown | [user|]]; try now left.
  unfold polls_insert. destruct (rejects env PollsInsert); [now left|].
  right. split; [exact V|]. now exists user.
Qed.

Lemma updatePoll_polls env w pid fd :
  polls (snd (updatePoll env w pid fd)) = polls w
  \/ (violations (form_question fd) (form_options fd) = 0
      /\ polls (snd (updatePoll env w pid fd))
         = map (apply_update pid (form_question fd) (form_options fd)) (polls w)).
Proof.
  unfold updatePoll.
  destruct (CreateUpdatePollSchema_safeParse _ _) as [issues | [q opts]] eqn:P;
    [now left|].
  apply safeParse_valid in P. destruct P as [P V]. inversion P; subst. clear P.
  destruct (getAuthenticatedUser env) as [thrown | [user|]]; try now left.
  destruct (polls_single env w pid) as [msg | existing]; [now left|].
  destruct (negb _); [now left|].
  unfold polls_update. destruct (rejects env PollsUpdate); [now left|].
  right. split; [exact V | reflexivity].
Qed.

Lemma deletePoll_polls env w pid :
  polls (snd (deletePoll env w pid)) = polls w
  \/ polls (snd (deletePoll env w pid))
     = filter (fun p => negb (Poll.id p =? pid)) (polls w).
Proof.
  unfold deletePoll. destruct (negb (truthy pid)); [now left|].
  destruct (getAuthenticatedUser env) as [thrown | [user|]]; try now left.
  destruct (polls_single env w pid) as [msg | existing]; [now left|].
  destruct (negb _); [now left|].
  unfold polls_delete. destruct (rejects env PollsDelete); [now left | now right].
Qed.

Lemma votes_keep_polls env w :
  (forall p i, polls (snd (submitVote env w p i)) = polls w)
  /\ (forall p u i, polls (snd (castVote env w p u i)) = polls w).
Proof.
  unfold submitVote, castVote, votes_upsert.
  split; intros; repeat (break_match; simpl; try congruence);
    repeat match goal with
           | E : (_, _) = (_, _) |- _ => inversion E; subst; clear E
           end; reflexivity.
Qed.

Lemma apply_update_wellformed pid q opts p :
  violations q opts = 0 -> poll_wellformed p ->
  poll_wellformed (apply_update pid q opts p).
Proof.
  intros V W. unfold apply_update. destruct (Poll.id p =? pid); [|exact W].
  now apply poll_wellformed_intro.
Qed.

(** X4. The bounds of the data model are an invariant of the polls table:
    if every stored poll has a question of 5 to 1000 characters and 2 to 50
    options of 1 to 300 characters each, the same holds after any of the
    seven actions, whatever its input, caller and outcome. *)
Theorem X4_actions_keep_polls_wellformed (env : Env) (w : World) :
  polls_wellformed w ->
  (forall fd, polls_wellformed (snd (createPoll env w fd)))
  /\ polls_wellformed (snd (getUserPolls env w))
  /\ (forall id, polls_wellformed (snd (getPollById env w id)))
  /\ (forall p i, polls_wellformed (snd (submitVote env w p i)))
  /\ (forall p u i, polls_wellformed (snd (castVote env w p u i)))
  /\ (forall p, polls_wellformed (snd (deletePoll env w p)))
  /\ (forall p fd, polls_wellformed (snd (updatePoll env w p fd))).
Proof.
  unfold polls_wellformed. intros W. repeat split; intros.
  - destruct (createPoll_polls env w fd) as [E | [V [u E]]]; rewrite E; [exact W|].
    apply Forall_app. split; [exact W|].
    constructor; [now apply poll_wellformed_intro | constructor].
  - destruct (reads_no_effect env w "") as [E _]. now rewrite E.
  - destruct (reads_no_effect env w id) as [_ E]. now rewrite E.
  - destruct (votes_keep_polls env w) as [E _]. now rewrite E.
  - destruct (votes_keep_polls env w) as [_ E]. now rewrite E.
  - destruct (deletePoll_polls env w p) as [E | E]; rewrite E; [exact W|].
    apply Forall_forall. intros x Hin. apply filter_In in Hin.
    rewrite Forall_forall in W. now apply W.
  - destruct (updatePoll_polls env w p fd) as [E | [V E]]; rewrite E; [exact W|].
    apply Forall_forall. intros x Hin. apply in_map_iff in Hin.
    destruct Hin as [y [<- Hy]]. rewrite Forall_forall in W.
    apply apply_update_wellformed; auto.
Qed.

Lemma sample_world_wellformed : polls_wellformed Sample.world.
Proof.
  constructor; [|constructor]. split; [vm_compute; lia|].
  exists ["Red"; "Blue"]. split; [reflexivity|]. split; [simpl; lia|].
  intros o [<- | [<- | []]]; vm_compute; lia.
Qed.

Lemma X4_actions_keep_polls_wellformed_witness :
  polls_wellformed
    (snd (updatePoll (Sample.request (Some Sample.alice) "t") Sample.world
            Sample.poll_id (Sample.form "Best colour?" ["Red"; "Green"; "Blue"]))).
Proof.
  apply (X4_actions_keep_polls_wellformed
           (Sample.request (Some Sample.alice) "t") Sample.world
           sample_world_wellformed).
Defined.

(* ================================================================= *)
(** ** Reading a poll back *)

(** X5. After a [createPoll] that reports no error, with the identifier the
    store generated being non-empty and new to the table, [getPollById] of
    that identifier, from any request the store answers, returns the poll
    just created: the question as sent and the normalised options. *)
Theorem X5_created_poll_reads_back
    (env env' : Env) (w : World) (fd : FormData) :
  fst (createPoll env w fd) = [("error", JNull)] ->
  fresh_id env <> "" -> rows_with_id w (fresh_id env) = [] ->
  rejects env' PollsSelect = None ->
  exists owner,
    fst (getPollById env' (snd (createPoll env w fd)) (fresh_id env))
    = [("poll", JPoll (Poll.mk (fresh_id env) (form_question fd)
                         (Some (form_options fd)) owner (now env)));
       ("error", JNull)].
Proof.
  intros Hok Hid Hnew Hs.
  destruct (createPoll_success_inv env w fd Hok) as [u [_ [_ [_ [_ E]]]]].
  exists (uid u). rewrite E. unfold getPollById.
  apply truthy_nonempty in Hid. rewrite Hid. simpl negb. cbv iota.
  rewrite (polls_single_found env' _ (fresh_id env)
             (Poll.mk (fresh_id env) (form_question fd) (Some (form_options fd))
                (uid u) (now env)) Hs); [reflexivity|].
  unfold rows_with_id in *. simpl. rewrite filter_app, Hnew. simpl.
  now rewrite String.eqb_refl.
Qed.

Lemma X5_created_poll_reads_back_witness :
  exists owner,
    fst (getPollById (Sample.request None "later")
           (snd (createPoll (Sample.request (Some Sample.bob) "t") Sample.world
                   (Sample.form "Tabs or spaces?" [" Tabs"; "Spaces  "])))
           Sample.other_id)
    = [("poll", JPoll (Poll.mk Sample.other_id "Tabs or spaces?"
                         (Some ["Tabs"; "Spaces"]) owner "t"));
       ("error", JNull)].
Proof.
  apply (X5_created_poll_reads_back (Sample.request (Some Sample.bob) "t")
           (Sample.request None "later") Sample.world
           (Sample.form "Tabs or spaces?" [" Tabs"; "Spaces  "]));
    [reflexivity | discriminate | reflexivity | reflexivity].
Defined.

(* ================================================================= *)
(** ** Callers without a session *)

(** X6. When the request carries no user, be it that nobody is signed in
    or that the session cannot be read, [createPoll], [getUserPolls],
    [submitVote], [deletePoll] and [updatePoll] report an error on every
    input and leave the world as it was; [getUserPolls] lists nothing. *)
Theorem X6_no_session_no_effect (env : Env) (w : World) :
  (forall u, ~ signed_in env u) ->
  (forall fd, error_of (fst (createPoll env w fd)) <> None
              /\ snd (createPoll env w fd) = w)
  /\ (error_of (fst (getUserPolls env w)) <> None
      /\ field (fst (getUserPolls env w)) "polls" = Some (JPolls [])
      /\ snd (getUserPolls env w) = w)
  /\ (forall p i, error_of (fst (submitVote env w p i)) <> None
                  /\ snd (submitVote env w p i) = w)
  /\ (forall p, error_of (fst (deletePoll env w p)) <> None
                /\ snd (deletePoll env w p) = w)
  /\ (forall p fd, error_of (fst (updatePoll env w p fd)) <> None
                   /\ snd (updatePoll env w p fd) = w).
Proof.
  intros Hno.
  assert (A : forall user, getAuthenticatedUser env <> inr (Some user)).
  { intros user E. apply (Hno user). unfold signed_in.
    unfold getAuthenticatedUser in E.
    destruct (getUser env) as [msg | [x|]]; congruence. }
  unfold createPoll, getUserPolls, submitVote, deletePoll, updatePoll.
  repeat split; intros;
    repeat (break_match; simpl; try congruence; try discriminate);
    try (exfalso; eapply A; eassumption).
Qed.

Lemma X6_no_session_no_effect_witness :
  snd (deletePoll (Sample.request None "t") Sample.world Sample.poll_id)
  = Sample.world.
Proof.
  destruct (X6_no_session_no_effect (Sample.request None "t") Sample.world)
    as [_ [_ [_ [D _]]]].
  - intros u H. discriminate H.
  - apply D.
Defined.

(* ================================================================= *)
(** ** What a stored vote means *)

Lemma submitVote_success_inv env w p i :
  fst (submitVote env w p i) = [("error", JNull)] ->
  exists u poll,
    signed_in env u /\ is_uuid p = true /\ rows_with_id w p = [poll]
    /\ (0 <= i < Z.of_nat (List.length (options_or_empty poll)))%Z
    /\ snd (submitVote env w p i)
       = revalidatePath ("/polls/" ++ p)
           (set_votes w (upsert_row (Vote.mk p (uid u) i (now env)) (votes w))).
Proof.
  unfold submitVote, signed_in.
  destruct (SubmitVoteSchema_safeParse p i) as [issues | [x y]] eqn:P;
    [discriminate|].
  pose proof P as Q. apply SubmitVoteSchema_parsed in Q. destruct Q; subst x y.
  assert (U : is_uuid p = true).
  { unfold SubmitVoteSchema_safeParse, SubmitVoteSchema_issues in P.
    destruct (is_uuid p); [reflexivity | discriminate]. }
  unfold getAuthenticatedUser.
  destruct (getUser env) as [msg | [user|]] eqn:Hu; try discriminate.
  destruct (polls_single env w p) as [msg | poll] eqn:E; [discriminate|].
  apply polls_single_inr in E.
  destruct (Z.ltb_spec i 0); [discriminate|].
  destruct (Z.leb_spec (Z.of_nat (List.length (options_or_empty poll))) i);
    [discriminate|].
  simpl orb. cbv iota. unfold votes_upsert.
  destruct (rejects env VotesUpsert); [discriminate|].
  intros _. exists user, poll. repeat split; auto.
Qed.

(** X7. Whenever [submitVote] reports no error, the caller was signed in,
    exactly one poll has the given identifier, the index is a position in
    the options that poll has at that moment, and the votes table now holds
    the row of that caller, poll and index: no vote is stored for a missing
    poll, for an index outside the options, or under another user's name. *)
Theorem X7_submitVote_success_means
    (env : Env) (w : World) (p : string) (i : Z) :
  fst (submitVote env w p i) = [("error", JNull)] ->
  exists u poll,
    signed_in env u /\ rows_with_id w p = [poll]
    /\ (0 <= i < Z.of_nat (List.length (options_or_empty poll)))%Z
    /\ In (Vote.mk p (uid u) i (now env)) (votes (snd (submitVote env w p i)))
    /\ polls (snd (submitVote env w p i)) = polls w.
Proof.
  intros H. destruct (submitVote_success_inv env w p i H) as [u [poll [A [_ [B [C D]]]]]].
  exists u, poll. rewrite D. split; [exact A|]. split; [exact B|]. split; [exact C|].
  split; [apply upsert_row_In | reflexivity].
Qed.

Lemma X7_submitVote_success_means_witness :
  exists u poll,
    signed_in (Sample.request (Some Sample.bob) "t") u
    /\ rows_with_id Sample.world Sample.poll_id = [poll]
    /\ (0 <= 1 < Z.of_nat (List.length (options_or_empty poll)))%Z.
Proof.
  destruct (X7_submitVote_success_means (Sample.request (Some Sample.bob) "t")
              Sample.world Sample.poll_id 1 eq_refl)
    as [u [poll [A [B [C _]]]]].
  exists u, poll. repeat split; tauto.
Defined.

(* ================================================================= *)
(** ** Deleting a poll *)

Lemma deletePoll_success_inv env w id :
  fst (deletePoll env w id) = [("error", JNull)] ->
  exists u p,
    signed_in env u /\ id <> "" /\ rows_with_id w id = [p]
    /\ Poll.user_id p = uid u
    /\ snd (deletePoll env w id)
       = revalidatePath "/polls"
           (mkWorld (filter (fun q => negb (Poll.id q =? id)) (polls w))
                    (filter (fun v => negb (Vote.poll_id v =? id)) (votes w))
                    (profiles w) (revalidated w)).
Proof.
  unfold deletePoll, signed_in.
  destruct (truthy id) eqn:T; simpl negb; cbv iota; [|discriminate].
  apply truthy_nonempty in T.
  unfold getAuthenticatedUser.
  destruct (getUser env) as [msg | [user|]] eqn:Hu; try discriminate.
  destruct (polls_single env w id) as [msg | existing] eqn:E; [discriminate|].
  apply polls_single_inr in E.
  destruct (String.eqb_spec (Poll.user_id existing) (uid user)) as [Ho | Ho];
    simpl negb; cbv iota; [|discriminate].
  unfold polls_delete. destruct (rejects env PollsDelete); [discriminate|].
  intros _. exists user, existing. repeat split; auto.
Qed.

Lemma filter_filter_none {A} (f : A -> bool) (l : list A) :
  filter f (filter (fun x => negb (f x)) l) = [].
Proof.
  induction l as [|a l IH]; simpl; [reflexivity|].
  destruct (f a) eqn:E; simpl; [exact IH | now rewrite E].
Qed.

Lemma filter_filter_other {A} (f g : A -> bool) (l : list A) :
  (forall x, f x = true -> g x = false) ->
  filter f (filter (fun x => negb (g x)) l) = filter f l.
Proof.
  intros H. induction l as [|a l IH]; simpl; [reflexivity|].
  destruct (g a) eqn:G; simpl.
  - destruct (f a) eqn:F; [rewrite (H a F) in G; discriminate | exact IH].
  - destruct (f a); now rewrite IH.
Qed.

(** X8. Whenever [deletePoll] reports no error, the caller is the owner of
    the poll, and afterwards no row of the polls table has that identifier,
    while the rows and the votes of every other poll are as before;
    [getPollById] of the deleted identifier then answers with the store's
    not-found error. *)
Theorem X8_deletePoll_removes_poll
    (env env' : Env) (w : World) (id : string) :
  fst (deletePoll env w id) = [("error", JNull)] ->
  (exists u p, signed_in env u /\ rows_with_id w id = [p]
               /\ Poll.user_id p = uid u)
  /\ rows_with_id (snd (deletePoll env w id)) id = []
  /\ (forall id', id' <> id ->
        rows_with_id (snd (deletePoll env w id)) id' = rows_with_id w id'
        /\ votes_on id' (votes (snd (deletePoll env w id))) = votes_on id' (votes w))
  /\ (rejects env' PollsSelect = None ->
      fst (getPollById env' (snd (deletePoll env w id)) id)
      = [("poll", JNull); ("error", JString PGRST116)]).
Proof.
  intros H. destruct (deletePoll_success_inv env w id H) as [u [p [A [B [C [D E]]]]]].
  rewrite E. unfold rows_with_id, votes_on. simpl.
  assert (R : filter (fun q => Poll.id q =? id)
                (filter (fun q => negb (Poll.id q =? id)) (polls w)) = [])
    by apply (filter_filter_none (fun q => Poll.id q =? id)).
  split; [eauto|]. split; [exact R|].
  split.
  - intros id' Hne. split; apply filter_filter_other; intros x Hx;
      apply String.eqb_eq in Hx; apply String.eqb_neq; congruence.
  - intros Hs. unfold getPollById. apply truthy_nonempty in B. rewrite B.
    simpl negb. cbv iota. unfold polls_single. simpl. now rewrite Hs, R.
Qed.

Lemma X8_deletePoll_removes_poll_witness :
  fst (getPollById (Sample.request None "later")
         (snd (deletePoll (Sample.request (Some Sample.alice) "t")
                 Sample.world Sample.poll_id))
         Sample.poll_id)
  = [("poll", JNull); ("error", JString PGRST116)].
Proof.
  destruct (X8_deletePoll_removes_poll
              (Sample.request (Some Sample.alice) "t") (Sample.request None "later")
              Sample.world Sample.poll_id eq_refl) as [_ [_ [_ G]]].
  apply G. reflexivity.
Defined.

(** X9. For a signed-in caller and an existing poll, with the store
    refusing nothing, [deletePoll] goes through exactly when the caller is
    the owner; any other caller is answered "Forbidden" and nothing changes,
    whatever role the profiles table gives that caller. *)
Theorem X9_deletePoll_only_by_owner
    (env : Env) (w : World) (id : string) (u : User) (p : Poll.t) :
  id <> "" -> signed_in env u -> store_accepts env -> rows_with_id w id = [p] ->
  (error_of (fst (deletePoll env w id)) = None <-> Poll.user_id p = uid u)
  /\ (Poll.user_id p <> uid u ->
      deletePoll env w id
      = ([("error", JString "Forbidden: you do not own this poll.")], w)).
Proof.
  intros Hid Hu Hs Hp. split; [now apply deletePoll_owner_only|].
  intros Hne. unfold deletePoll. apply truthy_nonempty in Hid. rewrite Hid.
  unfold getAuthenticatedUser. unfold signed_in in Hu. rewrite Hu. simpl.
  rewrite (polls_single_found env w id p (Hs _) Hp).
  now destruct (String.eqb_spec (Poll.user_id p) (uid u)).
Qed.

Lemma X9_deletePoll_only_by_owner_witness :
  error_of (fst (deletePoll (Sample.request (Some Sample.alice) "t")
                   Sample.world Sample.poll_id)) = None
  <-> Poll.user_id Sample.best_color = uid Sample.alice.
Proof.
  apply (X9_deletePoll_only_by_owner (Sample.request (Some Sample.alice) "t")
           Sample.world Sample.poll_id Sample.alice Sample.best_color);
    [discriminate | reflexivity | intros c; reflexivity | reflexivity].
Defined.

(* ================================================================= *)
(** ** Listing one's polls *)

Lemma insert_newest_perm p l : Permutation (insert_newest p l) (p :: l).
Proof.
  induction l as [|q l IH]; simpl; [reflexivity|].
  destruct (String.leb (Poll.created_at q) (Poll.created_at p)); [reflexivity|].
  rewrite IH. apply perm_swap.
Qed.

Lemma order_newest_perm l : Permutation (order_newest l) l.
Proof.
  induction l as [|p l IH]; simpl; [reflexivity|].
  rewrite insert_newest_perm. now constructor.
Qed.

Lemma insert_newest_head p q l :
  not_older q p -> HdRel not_older q l -> HdRel not_older q (insert_newest p l).
Proof.
  intros Hp Hl. destruct l as [|r l]; simpl; [now constructor|].
  destruct (String.leb (Poll.created_at r) (Poll.created_at p));
    constructor; auto. now inversion Hl.
Qed.

Lemma insert_newest_sorted p l :
  Sorted not_older l -> Sorted not_older (insert_newest p l).
Proof.
  induction l as [|q l IH]; intros S; simpl; [repeat constructor|].
  destruct (String.leb (Poll.created_at q) (Poll.created_at p)) eqn:E.
  - constructor; [exact S | now constructor].
  - inversion S as [|? ? Sl Hq]; subst. constructor; [now apply IH|].
    apply insert_newest_head; [|exact Hq].
    unfold not_older.
    destruct (String.leb_total (Poll.created_at p) (Poll.created_at q)); congruence.
Qed.

Lemma order_newest_sorted l : Sorted not_older (order_newest l).
Proof.
  induction l as [|p l IH]; simpl; [constructor | now apply insert_newest_sorted].
Qed.

(** X10. For a signed-in caller, with the store answering, [getUserPolls]
    reports no error and lists exactly the stored polls whose owner is the
    caller, each as often as it is stored, no poll of anyone else, the
    newest first; it changes nothing. *)
Theorem X10_getUserPolls_own_polls_newest_first
    (env : Env) (w : World) (u : User) :
  signed_in env u -> rejects env PollsSelect = None ->
  exists listed,
    getUserPolls env w = ([("polls", JPolls listed); ("error", JNull)], w)
    /\ Permutation listed (filter (fun p => Poll.user_id p =? uid u) (polls w))
    /\ (forall p, In p listed <-> In p (polls w) /\ Poll.user_id p = uid u)
    /\ Sorted not_older listed.
Proof.
  intros Hu Hs. unfold signed_in in Hu.
  exists (order_newest (filter (fun p => Poll.user_id p =? uid u) (polls w))).
  split; [|split; [apply order_newest_perm | split; [|apply order_newest_sorted]]].
  - unfold getUserPolls, getAuthenticatedUser, polls_of_user. now rewrite Hu, Hs.
  - intros p. split.
    + intros Hin. apply (Permutation_in _ (order_newest_perm _)) in Hin.
      apply filter_In in Hin. destruct Hin as [A B].
      apply String.eqb_eq in B. auto.
    + intros [A B].
      apply (Permutation_in _ (Permutation_sym (order_newest_perm _))).
      apply filter_In. split; [exact A | now apply String.eqb_eq].
Qed.

Lemma X10_getUserPolls_own_polls_newest_first_witness :
  exists listed,
    getUserPolls (Sample.request (Some Sample.alice) "t") Sample.world
    = ([("polls", JPolls listed); ("error", JNull)], Sample.world)
    /\ Sorted not_older listed.
Proof.
  destruct (X10_getUserPolls_own_polls_newest_first
              (Sample.request (Some Sample.alice) "t") Sample.world Sample.alice
              eq_refl eq_refl) as [listed [A [_ [_ B]]]].
  exists listed. split; assumption.
Defined.

Example getUserPolls_orders_by_time :
  fst (getUserPolls (Sample.request (Some Sample.alice) "t")
         (mkWorld [Poll.mk "a" "First poll" None "user-alice" "2024-01-01";
                   Poll.mk "b" "Bob's poll" None "user-bob" "2024-02-01";
                   Poll.mk "c" "Third poll" None "user-alice" "2024-03-01";
                   Poll.mk "d" "Second poll" None "user-alice" "2024-02-15"]
                  [] [] []))
  = [("polls", JPolls [Poll.mk "c" "Third poll" None "user-alice" "2024-03-01";
                       Poll.mk "d" "Second poll" None "user-alice" "2024-02-15";
                       Poll.mk "a" "First poll" None "user-alice" "2024-01-01"]);
     ("error", JNull)].
Proof. reflexivity. Qed.

(** X11. Whenever [getPollById] returns a poll, that poll is a row of the
    table, it has the identifier asked for, it is the only row that has it,
    and no error is reported; the world is unchanged. *)
Theorem X11_getPollById_returns_the_row
    (env : Env) (w : World) (id : string) (p : Poll.t) :
  field (fst (getPollById env w id)) "poll" = Some (JPoll p) ->
  Poll.id p = id /\ In p (polls w) /\ rows_with_id w id = [p]
  /\ getPollById env w id = ([("poll", JPoll p); ("error", JNull)], w).
Proof.
  unfold getPollById. destruct (negb (truthy id)); [discriminate|].
  destruct (polls_single env w id) as [msg | data] eqn:E; [discriminate|].
  simpl. intros H. inversion H; subst. clear H.
  apply polls_single_inr in E.
  assert (I : In p (rows_with_id w id)) by (rewrite E; now left).
  unfold rows_with_id in I. apply filter_In in I. destruct I as [I1 I2].
  apply String.eqb_eq in I2. auto.
Qed.

Lemma X11_getPollById_returns_the_row_witness :
  Poll.id Sample.best_color = Sample.poll_id /\ In Sample.best_color (polls Sample.world).
Proof.
  destruct (X11_getPollById_returns_the_row (Sample.request None "t")
              Sample.world Sample.poll_id Sample.best_color eq_refl)
    as [A [B _]].
  split; assumption.
Defined.

(* ================================================================= *)
(** ** More on the votes table *)

(** X12. [castVote] takes the voter from its argument, not from the
    session: for any non-empty poll and user identifiers, whoever calls and
    whether or not anyone is signed in, if the store accepts the write then
    the vote that user had on that poll is replaced by the index given, the
    pair has exactly that one row, and the rows of every other pair are as
    before. *)
Theorem X12_castVote_replaces_any_users_vote
    (env : Env) (w : World) (p v : string) (i : Z) :
  p <> "" -> v <> "" -> rejects env VotesUpsert = None ->
  votes_unique (votes w) ->
  votes_of p v (votes (snd (castVote env w p v i))) = [Vote.mk p v i (now env)]
  /\ (forall p' v', p' <> p \/ v' <> v ->
        votes_of p' v' (votes (snd (castVote env w p v i)))
        = votes_of p' v' (votes w))
  /\ polls (snd (castVote env w p v i)) = polls w.
Proof.
  intros Hp Hv Hs Hu.
  assert (E : castVote env w p v i
              = ([("success", JBool true);
                  ("data", JVotes [Vote.mk p v i (now env)])],
                 set_votes w (upsert_row (Vote.mk p v i (now env)) (votes w)))).
  { unfold castVote, votes_upsert.
    apply truthy_nonempty in Hp, Hv. now rewrite Hp, Hv, Hs. }
  rewrite E. simpl. repeat split.
  - apply upsert_row_same; [|apply Hu].
    unfold vote_of. simpl. now rewrite !String.eqb_refl.
  - intros p' v' Hne. apply upsert_row_other, vote_of_other, Hne.
Qed.

(** Alice's vote for Red, replaced by a call that carries no session. *)
Lemma X12_castVote_replaces_any_users_vote_witness :
  votes_of Sample.poll_id "user-alice"
    (votes (snd (castVote (Sample.request None "t2")
                   (set_votes Sample.world
                      [Vote.mk Sample.poll_id "user-alice" 0 "t1"])
                   Sample.poll_id "user-alice" 1)))
  = [Vote.mk Sample.poll_id "user-alice" 1 "t2"].
Proof.
  apply (X12_castVote_replaces_any_users_vote (Sample.request None "t2")
           (set_votes Sample.world [Vote.mk Sample.poll_id "user-alice" 0 "t1"])
           Sample.poll_id "user-alice" 1);
    [discriminate | discriminate | reflexivity |].
  intros p' v'. unfold count_votes, votes_of. simpl.
  destruct (vote_of p' v' _); simpl; lia.
Defined.

Lemma same_key_refl x : same_key x x = true.
Proof. unfold same_key. now rewrite !String.eqb_refl. Qed.

Lemma upsert_row_idempotent x vs :
  upsert_row x (upsert_row x vs) = upsert_row x vs.
Proof.
  destruct (existsb (same_key x) vs) eqn:E.
  - assert (U : upsert_row x vs = map (fun v => if same_key x v then x else v) vs)
      by (unfold upsert_row; now rewrite E).
    rewrite U. unfold upsert_row.
    assert (E' : existsb (same_key x)
                   (map (fun v => if same_key x v then x else v) vs) = true).
    { apply existsb_exists in E. destruct E as [r [Hin Hk]].
      apply existsb_exists. exists x. split; [|apply same_key_refl].
      apply in_map_iff. exists r. now rewrite Hk. }
    rewrite E', map_map. apply map_ext. intros r.
    destruct (same_key x r) eqn:K; [now rewrite same_key_refl | now rewrite K].
  - assert (U : upsert_row x vs = (vs ++ [x])%list)
      by (unfold upsert_row; now rewrite E).
    rewrite U. unfold upsert_row. rewrite existsb_app. simpl.
    rewrite same_key_refl, orb_true_r, map_app. simpl.
    rewrite same_key_refl. f_equal.
    rewrite <- (map_id vs) at 2. apply map_ext_in. intros r Hin.
    destruct (same_key x r) eqn:K; [|reflexivity].
    assert (existsb (same_key x) vs = true)
      by (apply existsb_exists; eauto).
    congruence.
Qed.

Lemma castVote_world env w p v i :
  snd (castVote env w p v i)
  = if negb (truthy p) || negb (truthy v) then w
    else match rejects env VotesUpsert with
         | Some _ => w
         | None => set_votes w (upsert_row (Vote.mk p v i (now env)) (votes w))
         end.
Proof.
  unfold castVote, votes_upsert.
  destruct (negb (truthy p) || negb (truthy v)); [reflexivity|].
  destruct (rejects env VotesUpsert); reflexivity.
Qed.





Example repeated_castVote_restamps :
  votes (snd (castVote (Sample.request None "11:00")
                (snd (castVote (Sample.request None "10:00") Sample.world
                        Sample.poll_id "user-alice" 1))
                Sample.poll_id "user-alice" 1))
  = [Vote.mk Sample.poll_id "user-alice" 1 "11:00"].
Proof. reflexivity. Qed.

(** X14. The uniqueness of (poll_id, user_id) in the votes table is kept by
    every action: a table with at most one row for each pair still has at
    most one row for each pair after any of the seven actions, whatever the
    input, the caller and the outcome. *)
Theorem X14_actions_keep_one_vote_per_pair (env : Env) (w : World) :
  votes_unique (votes w) ->
  (forall fd, votes_unique (votes (snd (createPoll env w fd))))
  /\ votes_unique (votes (snd (getUserPolls env w)))
  /\ (forall id, votes_unique (votes (snd (getPollById env w id))))
  /\ (forall p i, votes_unique (votes (snd (submitVote env w p i))))
  /\ (forall p u i, votes_unique (votes (snd (castVote env w p u i))))
  /\ (forall p, votes_unique (votes (snd (deletePoll env w p))))
  /\ (forall p fd, votes_unique (votes (snd (updatePoll env w p fd)))).
Proof.
  intros H. destruct (actions_keep_votes_unique env w H) as [A [B [C [D E]]]].
  repeat split; auto.
  - destruct (reads_no_effect env w "") as [R _]. now rewrite R.
  - intros id. destruct (reads_no_effect env w id) as [_ R]. now rewrite R.
Qed.

Lemma X14_actions_keep_one_vote_per_pair_witness :
  votes_unique
    (votes (snd (castVote (Sample.request None "t") Sample.world
                   Sample.poll_id "user-alice" 1))).
Proof.
  apply (X14_actions_keep_one_vote_per_pair (Sample.request None "t")
           Sample.world votes_unique_nil).
Defined.

(* ================================================================= *)
(** ** Errors and effects *)

(** X15. No partial writes: whenever one of the seven actions returns a
    result whose [error] field holds a message, the polls, the votes, the
    profiles and the revalidated paths are all exactly as before the call. *)
Theorem X15_error_leaves_world_unchanged (env : Env) (w : World) :
  (forall fd, error_of (fst (createPoll env w fd)) <> None ->
              snd (createPoll env w fd) = w)
  /\ (error_of (fst (getUserPolls env w)) <> None -> snd (getUserPolls env w) = w)
  /\ (forall id, error_of (fst (getPollById env w id)) <> None ->
                 snd (getPollById env w id) = w)
  /\ (forall p i, error_of (fst (submitVote env w p i)) <> None ->
                  snd (submitVote env w p i) = w)
  /\ (forall p u i, error_of (fst (castVote env w p u i)) <> None ->
                    snd (castVote env w p u i) = w)
  /\ (forall p, error_of (fst (deletePoll env w p)) <> None ->
                snd (deletePoll env w p) = w)
  /\ (forall p fd, error_of (fst (updatePoll env w p fd)) <> None ->
                   snd (updatePoll env w p fd) = w).
Proof.
  split; [intros; now apply createPoll_error_no_effect|].
  split; [intros _; apply (reads_no_effect env w "")|].
  split; [intros id _; apply (reads_no_effect env w id)|].
  split; [intros; now apply submitVote_error_no_effect|].
  split; [intros; now apply castVote_error_no_effect|].
  split; [intros; now apply deletePoll_error_no_effect|].
  intros; now apply updatePoll_error_no_effect.
Qed.

Lemma X15_error_leaves_world_unchanged_witness :
  snd (castVote (mkEnv (AuthData None) (fun _ => Some "permission denied") "t" "x")
         Sample.world Sample.poll_id "user-alice" 1)
  = Sample.world.
Proof.
  destruct (X15_error_leaves_world_unchanged
              (mkEnv (AuthData None) (fun _ => Some "permission denied") "t" "x")
              Sample.world) as [_ [_ [_ [_ [C _]]]]].
  apply C. vm_compute. discriminate.
Defined.

(** X16. Which paths are revalidated: [createPoll] and [deletePoll] add
    "/polls", [submitVote] and [updatePoll] add the page of the poll, each
    exactly when it reports no error; [castVote], [getUserPolls] and
    [getPollById] never revalidate anything, not even when [castVote] has
    changed a vote. *)
Theorem X16_revalidated_paths (env : Env) (w : World) :
  (forall fd,
     revalidated (snd (createPoll env w fd))
     = match error_of (fst (createPoll env w fd)) with
       | None => (revalidated w ++ ["/polls"])%list
       | Some _ => revalidated w
       end)
  /\ (forall p,
        revalidated (snd (deletePoll env w p))
        = match error_of (fst (deletePoll env w p)) with
          | None => (revalidated w ++ ["/polls"])%list
          | Some _ => revalidated w
          end)
  /\ (forall p i,
        revalidated (snd (submitVote env w p i))
        = match error_of (fst (submitVote env w p i)) with
          | None => (revalidated w ++ [("/polls/" ++ p)%string])%list
          | Some _ => revalidated w
          end)
  /\ (forall p fd,
        revalidated (snd (updatePoll env w p fd))
        = match error_of (fst (updatePoll env w p fd)) with
          | None => (revalidated w ++ [("/polls/" ++ p)%string])%list
          | Some _ => revalidated w
          end)
  /\ (forall p u i, revalidated (snd (castVote env w p u i)) = revalidated w)
  /\ revalidated (snd (getUserPolls env w)) = revalidated w
  /\ (forall id, revalidated (snd (getPollById env w id)) = revalidated w).
Proof.
  repeat split; intros.
  - unfold createPoll, polls_insert.
    repeat (break_match; simpl in *; try congruence; try discriminate);
      repeat match goal with
             | E : (_, _) = (_, _) |- _ => inversion E; subst; clear E
             end; reflexivity.
  - unfold deletePoll, polls_delete.
    repeat (break_match; simpl in *; try congruence; try discriminate);
      repeat match goal with
             | E : (_, _) = (_, _) |- _ => inversion E; subst; clear E
             end; reflexivity.
  - unfold submitVote.
    destruct (SubmitVoteSchema_safeParse p i) as [issues | [x y]] eqn:P;
      [reflexivity|].
    apply SubmitVoteSchema_parsed in P. destruct P; subst x y.
    unfold votes_upsert.
    repeat (break_match; simpl in *; try congruence; try discriminate);
      repeat match goal with
             | E : (_, _) = (_, _) |- _ => inversion E; subst; clear E
             end; reflexivity.
  - unfold updatePoll, polls_update.
    repeat (break_match; simpl in *; try congruence; try discriminate);
      repeat match goal with
             | E : (_, _) = (_, _) |- _ => inversion E; subst; clear E
             end; reflexivity.
  - rewrite castVote_world.
    destruct (negb (truthy p) || negb (truthy u)); [reflexivity|].
    destruct (rejects env VotesUpsert); reflexivity.
  - destruct (reads_no_effect env w "") as [R _]. now rewrite R.
  - destruct (reads_no_effect env w id) as [_ R]. now rewrite R.
Qed.

(* ================================================================= *)
(** ** Updating a poll *)

(** X17. The owner's update reads back: for a form within the bounds of
    the schema, sent by the signed-in owner of an existing poll to a store
    that refuses nothing, [updatePoll] reports no error and [getPollById]
    then returns the poll with the new question and options and with the
    identifier, the owner and the creation time it had. *)
Theorem X17_owner_update_reads_back
    (env env' : Env) (w : World) (pid : string) (fd : FormData)
    (u : User) (p : Poll.t) :
  5 <= String.length (form_question fd) <= 1000 ->
  2 <= List.length (form_options fd) <= 50 ->
  (forall o, In o (form_options fd) -> String.length o <= 300) ->
  pid <> "" -> signed_in env u -> store_accepts env ->
  rows_with_id w pid = [p] -> Poll.user_id p = uid u ->
  rejects env' PollsSelect = None ->
  fst (updatePoll env w pid fd) = [("error", JNull)]
  /\ fst (getPollById env' (snd (updatePoll env w pid fd)) pid)
     = [("poll", JPoll (Poll.mk pid (form_question fd) (Some (form_options fd))
                          (Poll.user_id p) (Poll.created_at p)));
        ("error", JNull)].
Proof.
  intros Hq Hn Ho Hid Hu Hs Hp Hown Hs'. unfold signed_in in Hu.
  assert (V : violations (form_question fd) (form_options fd) = 0).
  { apply bounds_no_violation; auto.
    intros o Hin. split; [now apply (form_options_nonempty fd) | now apply Ho]. }
  assert (I : Poll.id p = pid).
  { assert (X : In p (rows_with_id w pid)) by (rewrite Hp; now left).
    unfold rows_with_id in X. apply filter_In in X.
    now apply String.eqb_eq. }
  assert (E : updatePoll env w pid fd
              = ([("error", JNull)],
                 revalidatePath ("/polls/" ++ pid)
                   (set_polls w
                      (map (apply_update pid (form_question fd) (form_options fd))
                           (polls w))))).
  { unfold updatePoll. rewrite (safeParse_accepts _ _ V).
    unfold getAuthenticatedUser. rewrite Hu.
    rewrite (polls_single_found env w pid p (Hs _) Hp).
    rewrite Hown, String.eqb_refl. simpl.
    unfold polls_update. now rewrite (Hs PollsUpdate). }
  rewrite E. split; [reflexivity|]. simpl fst. simpl snd.
  unfold getPollById. apply truthy_nonempty in Hid. rewrite Hid.
  simpl negb. cbv iota.
  rewrite (polls_single_found env' _ pid
             (Poll.mk pid (form_question fd) (Some (form_options fd))
                (Poll.user_id p) (Poll.created_at p)) Hs'); [reflexivity|].
  unfold rows_with_id in *. simpl.
  assert (M : forall l,
             filter (fun q => Poll.id q =? pid)
               (map (apply_update pid (form_question fd) (form_options fd)) l)
             = map (apply_update pid (form_question fd) (form_options fd))
                 (filter (fun q => Poll.id q =? pid) l)).
  { induction l as [|a l IH]; simpl; [reflexivity|].
    unfold apply_update at 1. destruct (Poll.id a =? pid) eqn:A; simpl;
      rewrite ?String.eqb_refl, ?A, IH; simpl; reflexivity. }
  rewrite M, Hp. simpl. unfold apply_update. rewrite I, String.eqb_refl.
  reflexivity.
Qed.

Lemma X17_owner_update_reads_back_witness :
  fst (getPollById (Sample.request None "later")
         (snd (updatePoll (Sample.request (Some Sample.alice) "t") Sample.world
                 Sample.poll_id (Sample.form "Best colour?" ["Red"; " Green "])))
         Sample.poll_id)
  = [("poll", JPoll (Poll.mk Sample.poll_id "Best colour?" (Some ["Red"; "Green"])
                       "user-alice" "2024-01-01T00:00:00.000Z"));
     ("error", JNull)].
Proof.
  apply (X17_owner_update_reads_back
           (Sample.request (Some Sample.alice) "t") (Sample.request None "later")
           Sample.world Sample.poll_id (Sample.form "Best colour?" ["Red"; " Green "])
           Sample.alice Sample.best_color);
    try reflexivity; try discriminate.
  - vm_compute. lia.
  - vm_compute. lia.
  - intros o Hin. vm_compute in Hin.
    destruct Hin as [<- | [<- | []]]; vm_compute; lia.
  - intros c. reflexivity.
Defined.

(* ================================================================= *)
(** ** The admin page *)

Lemma fetch_role_not_admin c w u :
  is_admin w (uid u) = false ->
  match fetch_role c w u with
  | Some role => role =? "admin"
  | None => false
  end = false.
Proof.
  unfold is_admin, fetch_role. intros H.
  destruct (profile_rejected c); [reflexivity | exact H].
Qed.

Lemma fetch_role_closed c w u :
  profile_rejected c <> None \/ is_admin w (uid u) = false ->
  fetch_role c w u <> Some "admin".
Proof.
  unfold fetch_role, is_admin. intros [H | H].
  - destruct (profile_rejected c); [discriminate | congruence].
  - destruct (profile_rejected c); [discriminate|].
    destruct (profile_role w (uid u)) as [role|]; [|discriminate].
    intros E. inversion E; subst. discriminate H.
Qed.

(** X18. A visitor who is not signed in, or for whom the page's own read of
    the profile does not come back with the admin role (the row is missing,
    carries another role, or the read is refused, whatever the table
    holds), gets no poll from the admin page: the effect leaves the page's
    list as it was, empty on a fresh page, and the page renders an error
    text and nothing else, "Unauthorized" for the first and "Access denied"
    for the others. *)
Theorem X18_admin_page_closed_to_others
    (c : PageClient) (w : World) (user : option User) (st : PageState) :
  (forall u, user = Some u -> fetch_role c w u <> Some "admin") ->
  page_polls (AdminPage_effect c w user st) = page_polls st
  /\ page_error (AdminPage_effect c w user st)
     = Some (match user with
             | None => "Unauthorized: You must be logged in to view this page."
             | Some _ => "Access denied: Admins only."
             end)
  /\ AdminPage_render (AdminPage_effect c w user st)
     = ViewError (match user with
                  | None => "Unauthorized: You must be logged in to view this page."
                  | Some _ => "Access denied: Admins only."
                  end).
Proof.
  intros H. destruct user as [u|]; simpl.
  - unfold fetchAllPolls. specialize (H u eq_refl).
    assert (E : match fetch_role c w u with
                | Some role => role =? "admin"
                | None => false
                end = false).
    { destruct (fetch_role c w u) as [role|]; [|reflexivity].
      apply String.eqb_neq. congruence. }
    rewrite E. simpl. repeat split.
  - repeat split.
Qed.

(** Bob's row says admin, but the page's read of it is refused. *)
Lemma X18_admin_page_closed_to_others_witness :
  is_admin Sample.world (uid Sample.bob) = true
  /\ AdminPage_render
       (AdminPage_effect (mkPageClient (Some "permission denied") None)
          Sample.world (Some Sample.bob) AdminPage_initial)
     = ViewError "Access denied: Admins only.".
Proof.
  split; [reflexivity|].
  apply (X18_admin_page_closed_to_others
           (mkPageClient (Some "permission denied") None) Sample.world
           (Some Sample.bob) AdminPage_initial).
  intros u _. apply fetch_role_closed. left. discriminate.
Defined.

(** X19. For a signed-in visitor with the admin role, the store answering
    both reads, the effect loads every stored poll, whoever owns it, the
    newest first, into the page's list, and leaves the page's error as it
    was. The list is rendered if no error was set before. After the run of
    the effect without a user, which is how the page starts (the auth
    context begins with no user), the page keeps rendering "Unauthorized"
    although the list is loaded. *)
Theorem X19_admin_page_loads_but_keeps_error
    (c : PageClient) (w : World) (u : User) (st : PageState) :
  is_admin w (uid u) = true ->
  profile_rejected c = None -> polls_rejected c = None ->
  exists listed,
    Permutation listed (polls w)
    /\ Sorted not_older listed
    /\ page_polls (AdminPage_effect c w (Some u) st) = listed
    /\ page_error (AdminPage_effect c w (Some u) st) = page_error st
    /\ (page_error st = None ->
        AdminPage_render (AdminPage_effect c w (Some u) st) = ViewPolls listed)
    /\ page_polls (AdminPage_effect c w (Some u)
                     (AdminPage_effect c w None AdminPage_initial)) = listed
    /\ AdminPage_render (AdminPage_effect c w (Some u)
                           (AdminPage_effect c w None AdminPage_initial))
       = ViewError "Unauthorized: You must be logged in to view this page.".
Proof.
  intros Ha Hp Hq. exists (order_newest (polls w)).
  split; [apply order_newest_perm|]. split; [apply order_newest_sorted|].
  assert (F : forall s, AdminPage_effect c w (Some u) s
                        = mkPage (order_newest (polls w)) false
                                 (deleteLoading s) (page_error s)).
  { intros s. simpl. unfold fetchAllPolls, fetch_role. rewrite Hp.
    unfold is_admin in Ha. destruct (profile_role w (uid u)); [|discriminate].
    now rewrite Ha, Hq. }
  rewrite !F. simpl. repeat split.
  intros E. unfold AdminPage_render. simpl. now rewrite E.
Qed.

Lemma X19_admin_page_loads_but_keeps_error_witness :
  AdminPage_render
    (AdminPage_effect (mkPageClient None None) Sample.world (Some Sample.bob)
       (AdminPage_effect (mkPageClient None None) Sample.world None
          AdminPage_initial))
  = ViewError "Unauthorized: You must be logged in to view this page.".
Proof.
  destruct (X19_admin_page_loads_but_keeps_error (mkPageClient None None)
              Sample.world Sample.bob AdminPage_initial eq_refl eq_refl eq_refl)
    as [listed [_ [_ [_ [_ [_ [_ R]]]]]]].
  exact R.
Defined.

(** X20. The admin page's Delete on a poll the signed-in visitor does not
    own, whatever the visitor's role: nothing is deleted, the page keeps
    its list but sets its error to "Failed to delete poll.", and from then
    on it renders that text in place of the list. *)
Theorem X20_admin_delete_of_foreign_poll_fails
    (env : Env) (w : World) (st : PageState) (pollId : string)
    (u : User) (p : Poll.t) :
  pollId <> "" -> signed_in env u -> store_accepts env ->
  rows_with_id w pollId = [p] -> Poll.user_id p <> uid u ->
  loading st = false ->
  snd (handleDelete env w st pollId) = w
  /\ page_polls (fst (handleDelete env w st pollId)) = page_polls st
  /\ page_error (fst (handleDelete env w st pollId)) = Some "Failed to delete poll."
  /\ AdminPage_render (fst (handleDelete env w st pollId))
     = ViewError "Failed to delete poll.".
Proof.
  intros Hid Hu Hs Hp Hne Hl.
  assert (E : deletePoll env w pollId
              = ([("error", JString "Forbidden: you do not own this poll.")], w)).
  { unfold deletePoll. apply truthy_nonempty in Hid. rewrite Hid.
    unfold getAuthenticatedUser. unfold signed_in in Hu. rewrite Hu. simpl.
    rewrite (polls_single_found env w pollId p (Hs _) Hp).
    now destruct (String.eqb_spec (Poll.user_id p) (uid u)). }
  unfold handleDelete. rewrite E. simpl.
  unfold AdminPage_render. simpl. rewrite Hl. auto.
Qed.

(** Bob, admin, on Alice's poll, from the list the page gave him. *)
Lemma X20_admin_delete_of_foreign_poll_fails_witness :
  handleDelete (Sample.request (Some Sample.bob) "t") Sample.world
    (mkPage [Sample.best_color] false None None) Sample.poll_id
  = (mkPage [Sample.best_color] false None (Some "Failed to delete poll."),
     Sample.world)
  /\ AdminPage_render
       (fst (handleDelete (Sample.request (Some Sample.bob) "t") Sample.world
               (mkPage [Sample.best_color] false None None) Sample.poll_id))
     = ViewError "Failed to delete poll.".
Proof.
  split; [reflexivity|].
  apply (X20_admin_delete_of_foreign_poll_fails
           (Sample.request (Some Sample.bob) "t") Sample.world
           (mkPage [Sample.best_color] false None None) Sample.poll_id
           Sample.bob Sample.best_color);
    [discriminate | reflexivity | intros c; reflexivity | reflexivity
     | vm_compute; discriminate | reflexivity].
Defined.

Lemma Permutation_filter_both {A} (f : A -> bool) (l l' : list A) :
  Permutation l l' -> Permutation (filter f l) (filter f l').
Proof.
  induction 1 as [|x l l' _ IH|x y l|l l' l'' _ IH1 _ IH2]; simpl.
  - constructor.
  - destruct (f x); [now constructor | exact IH].
  - destruct (f x), (f y); try reflexivity. apply perm_swap.
  - now transitivity (filter f l').
Qed.

Lemma deletePoll_error_text env w id s :
  (forall c m, rejects env c = Some m -> m <> "") ->
  error_of (fst (deletePoll env w id)) = Some s -> s <> "".
Proof.
  intros Hm. unfold deletePoll.
  destruct (negb (truthy id)); [intros H; inversion H; discriminate|].
  destruct (getAuthenticatedUser env) as [thrown | [user|]];
    try (intros H; inversion H; discriminate).
  unfold polls_single.
  destruct (rejects env PollsSelect) as [m|] eqn:R.
  { intros H. inversion H; subst. exact (Hm _ _ R). }
  destruct (filter _ (polls w)) as [|existing [|b l]];
    try (intros H; inversion H; discriminate).
  destruct (negb _); [intros H; inversion H; discriminate|].
  unfold polls_delete. destruct (rejects env PollsDelete) as [m|] eqn:D.
  - intros H. inversion H; subst. exact (Hm _ _ D).
  - discriminate.
Qed.

(** The mutations return an object with the one field [error]. *)
Lemma mutation_results env w :
  (forall fd, exists v, fst (createPoll env w fd) = [("error", v)]
                        /\ (v = JNull \/ exists s, v = JString s))
  /\ (forall p i, exists v, fst (submitVote env w p i) = [("error", v)]
                            /\ (v = JNull \/ exists s, v = JString s))
  /\ (forall p, exists v, fst (deletePoll env w p) = [("error", v)]
                          /\ (v = JNull \/ exists s, v = JString s))
  /\ (forall p fd, exists v, fst (updatePoll env w p fd) = [("error", v)]
                             /\ (v = JNull \/ exists s, v = JString s)).
Proof.
  unfold createPoll, submitVote, deletePoll, updatePoll,
    polls_insert, votes_upsert, polls_delete, polls_update.
  repeat split; intros; repeat (break_match; simpl); eauto.
Qed.

(** X21. The page's list stays in step with the table under
    [handleDelete]: if the list shows the stored polls (in any order) and
    the store's refusals carry a message, then after [handleDelete], whether
    the deletion went through or not, the list again shows exactly the
    stored polls. *)
Theorem X21_admin_list_follows_table
    (env : Env) (w : World) (st : PageState) (pollId : string) :
  (forall c m, rejects env c = Some m -> m <> "") ->
  Permutation (page_polls st) (polls w) ->
  Permutation (page_polls (fst (handleDelete env w st pollId)))
              (polls (snd (handleDelete env w st pollId))).
Proof.
  intros Hm Hperm. unfold handleDelete.
  destruct (mutation_results env w) as [_ [_ [D _]]].
  destruct (D pollId) as [v [R V]]. clear D.
  destruct (deletePoll env w pollId) as [result w'] eqn:E. simpl in R. subst result.
  destruct V as [-> | [s ->]].
  - assert (O : fst (deletePoll env w pollId) = [("error", JNull)]) by now rewrite E.
    destruct (deletePoll_success_inv env w pollId O) as [u [p [_ [_ [_ [_ W]]]]]].
    rewrite E in W. simpl in W. subst w'.
    change (error_thrown [("error", JNull)]) with false. simpl.
    now apply Permutation_filter_both.
  - assert (N : s <> "").
    { apply (deletePoll_error_text env w pollId s Hm). now rewrite E. }
    change (error_thrown [("error", JString s)]) with (truthy s).
    apply truthy_nonempty in N. rewrite N. simpl.
    pose proof (deletePoll_error_no_effect env w pollId) as K.
    rewrite E in K. simpl in K. rewrite K; [exact Hperm | discriminate].
Qed.

Lemma X21_admin_list_follows_table_witness :
  Permutation
    (page_polls (fst (handleDelete (Sample.request (Some Sample.alice) "t")
                        Sample.world (mkPage [Sample.best_color] false None None)
                        Sample.poll_id)))
    (polls (snd (handleDelete (Sample.request (Some Sample.alice) "t")
                   Sample.world (mkPage [Sample.best_color] false None None)
                   Sample.poll_id))).
Proof.
  apply (X21_admin_list_follows_table (Sample.request (Some Sample.alice) "t")
           Sample.world (mkPage [Sample.best_color] false None None) Sample.poll_id).
  - intros c m H. discriminate H.
  - apply Permutation_refl.
Defined.

(** X22. [createPoll], [submitVote], [deletePoll] and [updatePoll] keep to
    the documented return type on every input: the result is an object with
    the single field [error], holding [null] or a text. *)
Theorem X22_mutations_return_error_only (env : Env) (w : World) :
  (forall fd, exists v, fst (createPoll env w fd) = [("error", v)]
                        /\ (v = JNull \/ exists s, v = JString s))
  /\ (forall p i, exists v, fst (submitVote env w p i) = [("error", v)]
                            /\ (v = JNull \/ exists s, v = JString s))
  /\ (forall p, exists v, fst (deletePoll env w p) = [("error", v)]
                          /\ (v = JNull \/ exists s, v = JString s))
  /\ (forall p fd, exists v, fst (updatePoll env w p fd) = [("error", v)]
                             /\ (v = JNull \/ exists s, v = JString s)).
Proof. exact (mutation_results env w). Qed.

(* ================================================================= *)
(** ** The review agent *)

Lemma findIndex_absent f args :
  (forall a, In a args -> f a = false) -> findIndex f args = None.
Proof.
  induction args as [|a rest IH]; intros H; simpl; [reflexivity|].
  rewrite (H a (or_introl eq_refl)), IH; [reflexivity|].
  intros b Hb. apply H. now right.
Qed.

Lemma findIndex_first f pre x rest :
  (forall a, In a pre -> f a = false) -> f x = true ->
  findIndex f (pre ++ x :: rest) = Some (List.length pre).
Proof.
  induction pre as [|a pre IH]; intros H Hx; simpl; [now rewrite Hx|].
  rewrite (H a (or_introl eq_refl)), IH; auto.
  intros b Hb. apply H. now right.
Qed.

Lemma not_flag flag pre :
  ~ In flag pre -> forall a, In a pre -> (a =? flag) = false.
Proof.
  intros H a Ha. apply String.eqb_neq. intros ->. contradiction.
Qed.

(** X23. How the agent reads a flag: its value is the argument right after
    the first occurrence of the flag, whatever follows; a flag that comes
    last has no value ([undefined]); a flag that does not occur has the
    default. *)
Theorem X23_flag_value (flag default : string) (pre : list string) :
  ~ In flag pre ->
  (forall v rest, arg_after flag default (pre ++ flag :: v :: rest) = Some v)
  /\ arg_after flag default (pre ++ [flag]) = None
  /\ arg_after flag default pre = Some default.
Proof.
  intros H. pose proof (not_flag flag pre H) as N. unfold arg_after.
  split; [|split].
  - intros v rest.
    rewrite (findIndex_first _ pre flag (v :: rest) N (String.eqb_refl flag)).
    rewrite nth_error_app2 by lia.
    replace (List.length pre + 1 - List.length pre) with 1 by lia. reflexivity.
  - rewrite (findIndex_first _ pre flag [] N (String.eqb_refl flag)).
    apply nth_error_None. rewrite length_app. simpl. lia.
  - now rewrite (findIndex_absent _ pre N).
Qed.

Lemma X23_flag_value_witness :
  arg_after "--mode" "staged" (["--base"; "dev"] ++ "--mode" :: "branch" :: ["--mode"; "staged"])
  = Some "branch"
  /\ arg_after "--mode" "staged" (["--base"; "dev"] ++ ["--mode"]) = None.
Proof.
  destruct (X23_flag_value "--mode" "staged" ["--base"; "dev"]) as [A [B _]].
  - intros [H | [H | []]]; discriminate.
  - split; [apply A | exact B].
Defined.

(** X24. Only the exact mode "staged" (or no [--mode] flag at all) collects
    the staged diff, and then [--base] plays no part; any other value of
    [--mode], a misspelt one or none after the flag, collects the diff of
    the branch against the value of [--base], and against "main" when
    [--base] is absent or comes last, in which case the logged line names
    the base "undefined". *)
Theorem X24_which_diff_is_collected (args : list string) (exec : Shell) :
  (arg_after "--mode" "staged" args = Some "staged" ->
   collect_diff args exec
   = ("[agent] Collecting staged diff...", getStagedDiff exec))
  /\ (arg_after "--mode" "staged" args <> Some "staged" ->
      snd (collect_diff args exec)
      = getBranchDiff exec (arg_after "--base" "main" args)
      /\ (arg_after "--base" "main" args = None ->
          collect_diff args exec
          = ("[agent] Collecting diff against base branch: undefined...",
             getBranchDiff exec (Some "main")))).
Proof.
  unfold collect_diff. split.
  - intros ->. reflexivity.
  - intros H.
    assert (E : forall (X : Type) (a b : X),
               match arg_after "--mode" "staged" args with
               | Some "staged" => a
               | _ => b
               end = b).
    { intros X a b. destruct (arg_after "--mode" "staged" args) as [m|];
        [|reflexivity].
      destruct (string_dec m "staged") as [-> | N]; [congruence|].
      repeat (destruct m as [|[[] [] [] [] [] [] [] []] m]; try reflexivity);
        exfalso; apply N; reflexivity. }
    rewrite E. split; [reflexivity|]. intros ->. reflexivity.
Qed.

Lemma X24_which_diff_is_collected_witness :
  collect_diff ["--mode"; "stagd"; "--base"]
    (fun cmd => if cmd =? "git rev-parse --abbrev-ref HEAD" then Some "feature
" else if cmd =? "git diff --no-color main..feature" then Some "+1" else None)
  = ("[agent] Collecting diff against base branch: undefined...", "+1").
Proof.
  destruct (X24_which_diff_is_collected ["--mode"; "stagd"; "--base"]
              (fun cmd => if cmd =? "git rev-parse --abbrev-ref HEAD" then Some "feature
" else if cmd =? "git diff --no-color main..feature" then Some "+1" else None))
    as [_ B].
  destruct B as [_ B]; [vm_compute; discriminate|].
  rewrite B; reflexivity.
Defined.

(** X25. When the collected diff is empty or white space only, the agent
    logs that there is no diff and exits with code 0: the generators are
    never asked (the run is the same whatever they would answer) and no
    report is written. *)
Theorem X25_blank_diff_exits_early
    (args : list string) (exec : Shell)
    (gc gc' : string -> option string)
    (gr gr' : string -> option (string * list string))
    (time time' : string) (writable writable' : bool) :
  trim (snd (collect_diff args exec)) = "" ->
  main args exec gc gr time writable
  = mkRun [fst (collect_diff args exec); "[agent] No diff detected. Exiting."]
          (Some 0) None
  /\ main args exec gc gr time writable = main args exec gc' gr' time' writable'.
Proof.
  intros H. unfold main.
  destruct (collect_diff args exec) as [line diffText]. simpl in *.
  rewrite H. simpl. split; reflexivity.
Qed.

Lemma X25_blank_diff_exits_early_witness :
  main ["--mode"; "branch"] (fun _ => None)
       (fun _ => Some "msg") (fun _ => Some ("s", [])) "now" true
  = mkRun ["[agent] Collecting diff against base branch: main...";
           "[agent] No diff detected. Exiting."] (Some 0) None.
Proof.
  apply (X25_blank_diff_exits_early ["--mode"; "branch"] (fun _ => None)
           (fun _ => Some "msg") (fun _ => Some "msg")
           (fun _ => Some ("s", [])) (fun _ => Some ("s", [])) "now" "now"
           true true).
  reflexivity.
Defined.

(** X26. Where git cannot run (every command throws), whatever the
    arguments, both helpers give the empty diff and the agent exits with
    code 0 without a report. *)
Theorem X26_no_git_no_report
    (args : list string) (exec : Shell)
    (gc : string -> option string)
    (gr : string -> option (string * list string))
    (time : string) (writable : bool) :
  (forall cmd, exec cmd = None) ->
  getStagedDiff exec = ""
  /\ (forall base, getBranchDiff exec base = "")
  /\ exit_code (main args exec gc gr time writable) = Some 0
  /\ report (main args exec gc gr time writable) = None.
Proof.
  intros H.
  assert (A : getStagedDiff exec = "") by (unfold getStagedDiff; now rewrite H).
  assert (B : forall base, getBranchDiff exec base = "")
    by (intros base; unfold getBranchDiff; now rewrite H).
  split; [exact A|]. split; [exact B|].
  assert (D : snd (collect_diff args exec) = "").
  { unfold collect_diff.
    destruct (arg_after "--mode" "staged" args) as [m|]; simpl; auto.
    repeat (destruct m as [|[[] [] [] [] [] [] [] []] m]; simpl; auto). }
  unfold main. destruct (collect_diff args exec) as [line diffText].
  simpl in D. subst diffText. split; reflexivity.
Qed.

Lemma X26_no_git_no_report_witness :
  exit_code (main ["--mode"; "branch"; "--base"; "dev"] (fun _ => None)
               (fun _ => Some "msg") (fun _ => Some ("s", [])) "now" true)
  = Some 0.
Proof.
  apply (X26_no_git_no_report ["--mode"; "branch"; "--base"; "dev"] (fun _ => None)
           (fun _ => Some "msg") (fun _ => Some ("s", [])) "now" true).
  reflexivity.
Defined.


(* ================================================================= *)
(** ** The report *)

Lemma numbered_nth issues : forall idx k x,
  nth_error issues k = Some x ->
  nth_error (numbered idx issues) k = Some (decimal (idx + k + 1) ++ ". " ++ x).
Proof.
  induction issues as [|i rest IH]; intros idx k x H; destruct k; simpl in *;
    try discriminate.
  - inversion H; subst. now rewrite Nat.add_0_r.
  - rewrite (IH (S idx) k x H).
    replace (S idx + k + 1) with (idx + S k + 1) by lia. reflexivity.
Qed.

Lemma numbered_length issues : forall idx,
  List.length (numbered idx issues) = List.length issues.
Proof.
  induction issues as [|i rest IH]; intros idx; simpl; [reflexivity | now rewrite IH].
Qed.

(** X28. The issues of the report are numbered from 1 in their order: the
    k-th issue (from 0) gives the line "k+1. issue", one line per issue; a
    review without issues gives the single line "- No issues found.". *)
Theorem X28_issues_are_numbered (issues : list string) :
  (forall k x, nth_error issues k = Some x ->
     nth_error (issue_lines issues) k = Some (decimal (k + 1) ++ ". " ++ x))
  /\ List.length (issue_lines issues) = Nat.max 1 (List.length issues)
  /\ (issues = [] -> issue_lines issues = ["- No issues found."]).
Proof.
  split; [|split].
  - intros k x H. destruct issues as [|i rest]; [destruct k; discriminate|].
    unfold issue_lines. apply (numbered_nth (i :: rest) 0 k x H).
  - destruct issues as [|i rest]; [reflexivity|].
    unfold issue_lines. rewrite numbered_length. simpl. reflexivity.
  - intros ->. reflexivity.
Qed.

Example issue_lines_of_eleven :
  nth_error (issue_lines ["a"; "b"; "c"; "d"; "e"; "f"; "g"; "h"; "i"; "j"; "k"]) 10
  = Some "11. k".
Proof. reflexivity. Qed.

Lemma substring_prefix n : forall s,
  exists rest, s = substring 0 n s ++ rest.
Proof.
  induction n as [|n IH]; intros s.
  - exists s. destruct s; reflexivity.
  - destruct s as [|c s]; [now exists ""|].
    destruct (IH s) as [rest E]. exists rest. simpl. now rewrite <- E.
Qed.

Lemma substring_length n : forall s,
  String.length (substring 0 n s) = Nat.min n (String.length s).
Proof.
  induction n as [|n IH]; intros s.
  - destruct s; reflexivity.
  - destruct s as [|c s]; [reflexivity|]. simpl. now rewrite IH.
Qed.

Lemma append_assoc (a b c : string) : (a ++ b) ++ c = a ++ (b ++ c).
Proof.
  induction a as [|x a IH]; simpl; [reflexivity | now rewrite IH].
Qed.

Lemma join_app_last sep l x :
  l <> [] -> join sep (l ++ [x]) = join sep l ++ sep ++ x.
Proof.
  unfold join. induction l as [|a l IH]; intros H; [congruence|].
  destruct l as [|b l]; [reflexivity|].
  change (String.concat sep ((a :: b :: l) ++ [x]))
    with (a ++ sep ++ String.concat sep ((b :: l) ++ [x])).
  rewrite IH by discriminate.
  change (String.concat sep (a :: b :: l))
    with (a ++ sep ++ String.concat sep (b :: l)).
  now rewrite !append_assoc.
Qed.

(** X29. The report carries at most the first 20000 characters of the
    diff ([slice_limit]): the text between the last two fences is a prefix
    of the diff, it is the whole diff when the diff has no more than 20000
    characters, and the report ends with it and the closing fence. *)
Theorem X29_report_truncates_diff
    (time : string) (mode : option string)
    (commitMessage summary : string) (issues : list string) (diff : string) :
  (exists head,
     review_content time mode commitMessage summary issues diff
     = head ++ newline ++ slice0 slice_limit diff ++ newline ++ "```")
  /\ String.length (slice0 slice_limit diff) = Nat.min slice_limit (String.length diff)
  /\ (exists rest, diff = slice0 slice_limit diff ++ rest)
  /\ (String.length diff <= slice_limit -> slice0 slice_limit diff = diff).
Proof.
  assert (L : String.length (slice0 slice_limit diff)
              = Nat.min slice_limit (String.length diff)).
  { unfold slice0. rewrite substring_length. reflexivity. }
  destruct (substring_prefix slice_limit diff) as [rest E].
  split; [|split; [exact L | split; [now exists rest|]]].
  - unfold review_content.
    set (top := [_; _; _; _; _; _; _; _; _; _; _; _; _; _]).
    exists (join newline (top ++ issue_lines issues
                           ++ [""; "---"; "## Raw Diff"; "```diff"])%list).
    replace (top ++ issue_lines issues
               ++ [""; "---"; "## Raw Diff"; "```diff"; slice0 slice_limit diff; "```"])%list
      with (((top ++ issue_lines issues ++ [""; "---"; "## Raw Diff"; "```diff"])
              ++ [slice0 slice_limit diff]) ++ ["```"])%list.
    + rewrite !join_app_last; [now rewrite !append_assoc | | ];
        unfold top; simpl; discriminate.
    + unfold top. rewrite <- !app_assoc. reflexivity.
  - intros H. unfold slice0 in *.
    assert (R : String.length rest = 0).
    { apply (f_equal String.length) in E.
      assert (A : forall a b, String.length (a ++ b) = String.length a + String.length b).
      { induction a; intros; simpl; auto. }
      rewrite A, L in E. lia. }
    destruct rest; [|discriminate].
    rewrite E at 2.
    assert (Z : forall a, a ++ "" = a) by (induction a; simpl; congruence).
    now rewrite Z.
Qed.

Example report_of_a_small_review :
  review_content "2024-05-01 10:00:00" (Some "staged") "Fix typo" ""
                 ["Rename x"; "Add a test"] "+a"
  = join newline
      ["# Code Review Report"; ""; "**Generated:** 2024-05-01 10:00:00";
       "**Mode:** staged"; ""; "## Suggested commit message"; "```"; "Fix typo";
       "```"; ""; "## Summary"; "No summary."; ""; "## Issues & Suggestions";
       "1. Rename x"; "2. Add a test"; ""; "---"; "## Raw Diff"; "```diff";
       "+a"; "```"].
Proof. reflexivity. Qed.

(* ================================================================= *)
(** ** Validation of a vote *)

(** X30. A poll identifier that is not UUID-shaped, or a negative index,
    stops [submitVote] at the schema: whoever calls, signed in or not, and
    whatever the store holds, the result is the joined validation messages,
    one for the identifier and one for the index as the case may be, with no
    lookup made and nothing written. *)
Theorem X30_submitVote_rejects_malformed_input
    (env : Env) (w : World) (p : string) (i : Z) :
  is_uuid p = false \/ (i < 0)%Z ->
  submitVote env w p i
  = ([("error", JString (issues_text (SubmitVoteSchema_issues p i)))], w)
  /\ List.length (SubmitVoteSchema_issues p i)
     = (if is_uuid p then 0 else 1) + (if (i <? 0)%Z then 1 else 0)
  /\ 1 <= List.length (SubmitVoteSchema_issues p i).
Proof.
  intros H.
  assert (L : List.length (SubmitVoteSchema_issues p i)
              = (if is_uuid p then 0 else 1) + (if (i <? 0)%Z then 1 else 0)).
  { unfold SubmitVoteSchema_issues. rewrite length_app.
    destruct (is_uuid p), (i <? 0)%Z; reflexivity. }
  assert (N : 1 <= List.length (SubmitVoteSchema_issues p i)).
  { rewrite L. destruct H as [-> | H]; [simpl; lia|].
    apply Z.ltb_lt in H. rewrite H. destruct (is_uuid p); simpl; lia. }
  split; [|split; assumption].
  unfold submitVote, SubmitVoteSchema_safeParse.
  destruct (SubmitVoteSchema_issues p i); [simpl in N; lia | reflexivity].
Qed.

Lemma X30_submitVote_rejects_malformed_input_witness :
  submitVote (Sample.request (Some Sample.bob) "t") Sample.world "42" 0
  = ([("error", JString "Invalid uuid")], Sample.world).
Proof.
  destruct (X30_submitVote_rejects_malformed_input
              (Sample.request (Some Sample.bob) "t") Sample.world "42" 0)
    as [E _].
  - left. reflexivity.
  - rewrite E. reflexivity.
Defined.

Lemma X28_issues_are_numbered_witness :
  nth_error (issue_lines ["Rename x"; "Add a test"]) 1 = Some "2. Add a test".
Proof.
  destruct (X28_issues_are_numbered ["Rename x"; "Add a test"]) as [A _].
  apply (A 1 "Add a test"). reflexivity.
Defined.

Lemma X29_report_truncates_diff_witness :
  slice0 slice_limit "+a" = "+a".
Proof.
  destruct (X29_report_truncates_diff "now" (Some "staged") "Fix typo" "" [] "+a")
    as [_ [_ [_ A]]].
  apply A. unfold slice_limit. simpl String.length. lia.
Defined.
